(** * xdv: rule compiler and transform runner

    A shallow embedding of [lib/xdv/compiler.py] and [lib/xdv/run.py]:
    the theme URL rewriter ([to_absolute], [apply_absolute_prefix]), the
    namespace migrator ([update_namespace]), the two resolvers
    ([CompileResolver], [RunResolver]) and the two drivers
    ([compile_theme], [run.main]).

    Python strings are [string]s, exceptions are the [Raise] branch of
    [result], the logger is an explicit list of records, and lxml trees
    are the inductive type [node]. *)

From Stdlib Require Import String Ascii List Bool Arith Lia Permutation.
Set Warnings "-register-all".
Import ListNotations.
Open Scope string_scope.

(* ================================================================= *)
(** ** Python string operations used by the two modules *)

Module Py.

(** [s.startswith(p)] *)
Definition startswith (p s : string) : bool := String.prefix p s.

(** [sub in s] *)
Fixpoint contains (sub s : string) : bool :=
  String.prefix sub s ||
  match s with
  | EmptyString => false
  | String _ s' => contains sub s'
  end.

(** [s.endswith(suf)] *)
Fixpoint endswith (suf s : string) : bool :=
  String.eqb suf s ||
  match s with
  | EmptyString => false
  | String _ s' => endswith suf s'
  end.

(** [s[:-1]] *)
Fixpoint drop_last (s : string) : string :=
  match s with
  | EmptyString => EmptyString
  | String _ EmptyString => EmptyString
  | String c s' => String c (drop_last s')
  end.

(** [s.split(c)] for a one-character separator: one more piece than
    there are separators, the pieces possibly empty. *)
Fixpoint split (c : ascii) (s : string) : list string :=
  match s with
  | EmptyString => [EmptyString]
  | String a s' =>
      if Ascii.eqb a c then EmptyString :: split c s'
      else match split c s' with
           | h :: t => String a h :: t
           | [] => [String a EmptyString]
           end
  end.

(** [sep.join(l)] *)
Definition join (sep : string) (l : list string) : string := String.concat sep l.

(** [s.replace(a, b)] for one-character [a] and [b] *)
Fixpoint replace (a b : ascii) (s : string) : string :=
  match s with
  | EmptyString => EmptyString
  | String c s' => String (if Ascii.eqb c a then b else c) (replace a b s')
  end.

(** ASCII case folding, as [str.lower] and [re.IGNORECASE] do on byte
    strings. *)
Definition lower_ascii (c : ascii) : ascii :=
  let n := nat_of_ascii c in
  if ((65 <=? n)%nat && (n <=? 90)%nat)%bool then ascii_of_nat (n + 32) else c.

Fixpoint lower (s : string) : string :=
  match s with
  | EmptyString => EmptyString
  | String c s' => String (lower_ascii c) (lower s')
  end.

(** Truth value of an optional string: [None] and [''] are false. *)
Definition truthy (o : option string) : bool :=
  match o with
  | Some s => negb (String.eqb s "")
  | None => false
  end.

(** [all(p(c) for c in s)] *)
Fixpoint all (p : ascii -> bool) (s : string) : bool :=
  match s with
  | EmptyString => true
  | String c s' => p c && all p s'
  end.

(** Occurrence of a character. *)
Fixpoint has_char (c : ascii) (s : string) : bool :=
  match s with
  | EmptyString => false
  | String a s' => Ascii.eqb a c || has_char c s'
  end.

End Py.

(* ================================================================= *)
(** ** Exceptions *)

Inductive exn : Type :=
| TypeError (msg : string)
| ParseError (source : string)
| XSLTError (msg : string)
| SystemExit (msg : string).

Inductive result (A : Type) : Type :=
| Ok (a : A)
| Raise (e : exn).
Arguments Ok {A} a.
Arguments Raise {A} e.

Definition bind {A B : Type} (m : result A) (k : A -> result B) : result B :=
  match m with
  | Ok a => k a
  | Raise e => Raise e
  end.

Notation "x <- m ;; k" := (bind m (fun x => k))
  (at level 61, m at next level, right associativity).

(* ================================================================= *)
(** ** [os.path]

    The module the interpreter binds to [os.path] depends on the host.
    The code uses three of its members. *)

Record OsPath : Type := {
  os_path_sep : ascii;
  os_path_normpath : string -> string;
  os_path_join : string -> string -> string;
  os_path_dirname : string -> string
}.

Module posixpath.

(** One turn of the loop of [posixpath.normpath] over the components:
    empty and ['.'] components are skipped, ['..'] removes the last kept
    component unless there is none to remove or it is itself ['..']. *)
Definition step (initial_slashes : nat) (new_comps : list string) (comp : string)
  : list string :=
  if String.eqb comp "" || String.eqb comp "." then new_comps
  else if negb (String.eqb comp "..")
          || ((initial_slashes =? 0)%nat && (match new_comps with [] => true | _ => false end))
          || (match new_comps with
              | [] => false
              | _ => String.eqb (last new_comps "") ".."
              end)
       then (new_comps ++ [comp])%list
       else match new_comps with
            | [] => new_comps
            | _ => removelast new_comps
            end.

Definition initial_slashes (path : string) : nat :=
  if Py.startswith "/" path then
    if Py.startswith "//" path && negb (Py.startswith "///" path) then 2 else 1
  else 0.

Definition new_comps (path : string) : list string :=
  fold_left (step (initial_slashes path)) (Py.split "/" path) [].

Definition slashes (n : nat) : string :=
  match n with
  | 0 => ""
  | 1 => "/"
  | _ => "//"
  end.

(** [posixpath.normpath] of CPython 2. *)
Definition normpath (path : string) : string :=
  if String.eqb path "" then "."
  else
    let p := slashes (initial_slashes path) ++ Py.join "/" (new_comps path) in
    if String.eqb p "" then "." else p.

(** The components of a normalized path: none is empty, ['.'] or holds
    a slash; ['..'] components only lead, and only in a relative path. *)
Definition normal (initial_slashes : nat) (comps : list string) : Prop :=
  Forall (fun c => c <> "" /\ c <> "." /\ Py.has_char "/" c = false) comps /\
  exists k rest,
    comps = (repeat ".." k ++ rest)%list /\ ~ In ".." rest /\
    (initial_slashes <> 0 -> k = 0).

(** [posixpath.join(a, b)] *)
Definition join (a b : string) : string :=
  if Py.startswith "/" b then b
  else if String.eqb a "" || Py.endswith "/" a then a ++ b
  else a ++ "/" ++ b.

(** [p[:p.rfind('/') + 1]]: a character is kept while a slash is still
    to come. *)
Fixpoint upto_last_slash (p : string) : string :=
  match p with
  | EmptyString => EmptyString
  | String c p' => if Py.has_char "/" p then String c (upto_last_slash p') else EmptyString
  end.

(** [s.rstrip('/')] *)
Fixpoint rstrip_slash (s : string) : string :=
  match s with
  | EmptyString => EmptyString
  | String c s' =>
      let r := rstrip_slash s' in
      if String.eqb r "" && Ascii.eqb c "/" then EmptyString else String c r
  end.

(** [posixpath.dirname(p)]: a head that is all slashes is kept whole
    (stripping it leaves nothing exactly then). *)
Definition dirname (p : string) : string :=
  let head := upto_last_slash p in
  if String.eqb (rstrip_slash head) "" then head else rstrip_slash head.

Definition os_path : OsPath :=
  {| os_path_sep := "/"%char;
     os_path_normpath := normpath;
     os_path_join := join;
     os_path_dirname := dirname |}.

End posixpath.

(* ================================================================= *)
(** ** lxml trees

    An element has a namespace URI, a local name, attributes in document
    order, the text before its first child, its children and the text
    that follows it; a comment has its text and a tail.  lxml gives ['']
    for the text of an empty comment, [None] for an element without
    text. *)

Inductive node : Type :=
| Element (ns tag : string) (attrib : list (string * string))
    (text : option string) (children : list node) (tail : option string)
| Comment (text : string) (tail : option string).

Module etree.

(** [node.get(key)] *)
Fixpoint get (key : string) (attrib : list (string * string)) : option string :=
  match attrib with
  | [] => None
  | (k, v) :: rest => if String.eqb k key then Some v else get key rest
  end.

(** [node.set(key, value)]: an existing attribute keeps its place.
    lxml refuses a value that is not XML-compatible (a control
    character, a byte above 127 in a byte string); the strings of the
    model stand for compatible ones, here and in the text of a node. *)
Fixpoint set (key value : string) (attrib : list (string * string))
  : list (string * string) :=
  match attrib with
  | [] => [(key, value)]
  | (k, v) :: rest =>
      if String.eqb k key then (k, value) :: rest else (k, v) :: set key value rest
  end.

(** [node.tag] of an element: the local name, after the namespace in
    braces when there is one. *)
Definition tag_of (ns tag : string) : string :=
  if String.eqb ns "" then tag else "{" ++ ns ++ "}" ++ tag.

Definition set_children (n : node) (cs : list node) : node :=
  match n with
  | Element ns tag attrib text _ tail => Element ns tag attrib text cs tail
  | Comment _ _ => n
  end.

Definition children_of (n : node) : list node :=
  match n with
  | Element _ _ _ _ cs _ => cs
  | Comment _ _ => []
  end.

(** The XPath name test [name] (no prefix): an element of that local
    name in no namespace. *)
Definition name_test (name : string) (n : node) : bool :=
  match n with
  | Element ns tag _ _ _ _ => String.eqb ns "" && String.eqb tag name
  | Comment _ _ => false
  end.

(** The XPath node test [comment()]. *)
Definition is_comment (n : node) : bool :=
  match n with
  | Comment _ _ => true
  | Element _ _ _ _ _ _ => false
  end.

(** Left-to-right traversal that stops at the first exception. *)
Fixpoint mapM {A B : Type} (f : A -> result B) (l : list A) : result (list B) :=
  match l with
  | [] => Ok []
  | a :: l' => b <- f a ;; bs <- mapM f l' ;; Ok (b :: bs)
  end.

End etree.

(* ================================================================= *)
(** ** The part of [re] that [IMPORT_STYLESHEET] needs

    A backtracking matcher in continuation-passing style, with the
    greedy, leftmost-alternative-first order of Python's engine. *)

Module re.

Inductive regex : Type :=
| Eps
| Chr (p : ascii -> bool)
| Cat (r1 r2 : regex)
| Alt (r1 r2 : regex)
| Opt (r : regex)
| Plus (p : ascii -> bool)
| Group (n : nat) (r : regex).

Definition groups : Type := list (nat * string).

(** [m.group(n)] of a group that took part in the match. *)
Fixpoint group (n : nat) (g : groups) : string :=
  match g with
  | [] => ""
  | (k, s) :: rest => if Nat.eqb k n then s else group n rest
  end.

(** What was read between [s] and its suffix [rest]. *)
Definition consumed (s rest : string) : string :=
  substring 0 (String.length s - String.length rest) s.

(** Greedy [p*]: as many characters as possible, one fewer at a time
    while the continuation fails. *)
Fixpoint star {A : Type} (p : ascii -> bool) (s : string)
  (k : string -> option A) : option A :=
  match s with
  | String c s' =>
      if p c then
        match star p s' k with
        | Some r => Some r
        | None => k s
        end
      else k s
  | EmptyString => k s
  end.

Fixpoint run {A : Type} (r : regex) (s : string) (g : groups)
  (k : string -> groups -> option A) : option A :=
  match r with
  | Eps => k s g
  | Chr p =>
      match s with
      | String c s' => if p c then k s' g else None
      | EmptyString => None
      end
  | Cat r1 r2 => run r1 s g (fun s' g' => run r2 s' g' k)
  | Alt r1 r2 =>
      match run r1 s g k with
      | Some x => Some x
      | None => run r2 s g k
      end
  | Opt r1 =>
      match run r1 s g k with
      | Some x => Some x
      | None => k s g
      end
  | Plus p =>
      match s with
      | String c s' => if p c then star p s' (fun s'' => k s'' g) else None
      | EmptyString => None
      end
  | Group n r1 => run r1 s g (fun s' g' => k s' ((n, consumed s s') :: g'))
  end.

(** [pattern.match(s)]: the text left after the match and its groups. *)
Definition match_ (r : regex) (s : string) : option (string * groups) :=
  run r s [] (fun rest g => Some (rest, g)).

(** [pattern.sub(repl, s)] with a function [repl], for a pattern that
    matches no empty string: matches are looked for from left to right
    and do not overlap.  [skip] counts the characters of the current
    match that are still to be passed over. *)
Fixpoint sub_from (r : regex) (repl : groups -> string) (s : string) (skip : nat)
  : string :=
  match s with
  | EmptyString => EmptyString
  | String c s' =>
      match skip with
      | S k => sub_from r repl s' k
      | 0 =>
          match match_ r s with
          | Some (rest, g) =>
              match String.length s - String.length rest with
              | S k => repl g ++ sub_from r repl s' k
              | 0 => String c (sub_from r repl s' 0)
              end
          | None => String c (sub_from r repl s' 0)
          end
      end
  end.

Definition sub (r : regex) (repl : groups -> string) (s : string) : string :=
  sub_from r repl s 0.

(** A literal under [re.IGNORECASE]. *)
Fixpoint lit_i (s : string) : regex :=
  match s with
  | EmptyString => Eps
  | String c s' =>
      Cat (Chr (fun a => Ascii.eqb (Py.lower_ascii a) (Py.lower_ascii c))) (lit_i s')
  end.

(** [\s] on byte strings: space, tab, newline, return, form feed,
    vertical tab. *)
Definition space (c : ascii) : bool :=
  let n := nat_of_ascii c in
  (Nat.eqb n 32 || ((9 <=? n)%nat && (n <=? 13)%nat))%bool.

(** [.] without [re.DOTALL] *)
Definition dot (c : ascii) : bool := negb (Nat.eqb (nat_of_ascii c) 10).

(** The class of the two quote characters, single (39) and double (34). *)
Definition quote (c : ascii) : bool :=
  (Nat.eqb (nat_of_ascii c) 39 || Nat.eqb (nat_of_ascii c) 34)%bool.

Definition is_char (c : ascii) : ascii -> bool := fun a => Ascii.eqb a c.

End re.

(* ================================================================= *)
(** ** The logger and the monad of the drivers

    The [logging] calls are kept as the list of records handed to the
    logger ['xdv'], oldest first.  A computation of the drivers reads
    and extends that list and may raise. *)

Inductive level : Type := DEBUG | INFO | WARNING.

Definition log : Type := list (level * string).

Definition M (A : Type) : Type := log -> result A * log.

Definition ret {A : Type} (a : A) : M A := fun l => (Ok a, l).

Definition raise {A : Type} (e : exn) : M A := fun l => (Raise e, l).

Definition bindM {A B : Type} (m : M A) (k : A -> M B) : M B :=
  fun l =>
    match m l with
    | (Ok a, l') => k a l'
    | (Raise e, l') => (Raise e, l')
    end.

Definition lift {A : Type} (r : result A) : M A := fun l => (r, l).

Definition logger_log (lvl : level) (msg : string) : M unit :=
  fun l => (Ok tt, (l ++ [(lvl, msg)])%list).

Definition logger_warning : string -> M unit := logger_log WARNING.
Definition logger_info : string -> M unit := logger_log INFO.

Notation "x <~ m ;; k" := (bindM m (fun x => k))
  (at level 61, m at next level, right associativity).

(** A computation whose outcome does not depend on the log it starts
    from, and which only appends to it. *)
Definition writes {A : Type} (m : M A) : Prop :=
  exists (r : result A) (out : log), forall l, m l = (r, (l ++ out)%list).

(* ================================================================= *)
(** ** What the two modules take from lxml and from the package *)

(** What a resolver hands back: a document given as a string or by
    file name. *)
Inductive InputDocument : Type :=
| resolve_string (s : string)
| resolve_filename (filename : string).

(** The [resolve] method of an [etree.Resolver]; [None] declines and
    leaves the request to the next resolver, in the end to libxml2. *)
Definition Resolver : Type := string -> option InputDocument.

Inductive parser_kind : Type := XML | HTML.

(** A parser and the resolvers registered on it. *)
Record Parser : Type := {
  kind : parser_kind;
  resolvers : list Resolver
}.

(** [etree.XMLParser()], also [etree.XMLParser(recover=False)], the
    default *)
Definition XMLParser : Parser := {| kind := XML; resolvers := [] |}.

(** [etree.HTMLParser()] *)
Definition HTMLParser : Parser := {| kind := HTML; resolvers := [] |}.

(** [parser.resolvers.add(r)].  lxml keeps the resolvers in a set; the
    list keeps them in the order of registration, and
    [compiler.invocation] below lets a call ask them in any order. *)
Definition resolvers_add (p : Parser) (r : Resolver) : Parser :=
  {| kind := kind p; resolvers := (resolvers p ++ [r])%list |}.

(** [etree.XSLTAccessControl] *)
Record XSLTAccessControl : Type := {
  read_file : bool;
  write_file : bool;
  create_dir : bool;
  read_network : bool;
  write_network : bool
}.

(** [etree.XSLT(xslt_input, access_control=...)] *)
Record XSLT : Type := {
  xslt_input : node;
  xslt_access_control : XSLTAccessControl
}.

(** What [etree.parse] is given: a file name, the standard input, or
    an object that is neither a name nor a file (such as [None]), from
    which lxml does not parse. *)
Inductive source : Type :=
| Filename (name : string)
| Stdin
| Other.

(** The operations whose code is outside the two modules: libxml2 and
    libxslt behind lxml, the compiler stylesheet, and the selector
    translator [cssrules.convert_css_selectors]. *)
Record Env : Type := {
  (** [etree.parse(source, parser=parser)] *)
  etree_parse : Parser -> source -> result node;
  (** [doc.xinclude()] *)
  etree_xinclude : node -> result node;
  (** [etree.tostring(doc)] *)
  etree_tostring : node -> string;
  (** whether libxslt accepts the document as a stylesheet *)
  XSLT_accepts : node -> result unit;
  (** [transform(doc, **params)]: the result tree and the messages of
      [transform.error_log]; the resolvers are those of the parser of
      the stylesheet at the time of the call *)
  XSLT_call : XSLT -> list Resolver -> node -> list (string * string)
              -> result (node * list string);
  (** [tree.write(output, encoding=..., pretty_print=...)]: the bytes
      written *)
  etree_write : node -> bool -> string;
  (** [convert_css_selectors(rules)] *)
  convert_css_selectors : node -> result node
}.

Definition etree_XSLT (env : Env) (xslt_input : node)
  (access_control : XSLTAccessControl) : result XSLT :=
  _ <- XSLT_accepts env xslt_input ;;
  Ok {| xslt_input := xslt_input; xslt_access_control := access_control |}.

(** [from utils import namespaces]: the two entries that are used. *)
Record Namespaces : Type := {
  ns_old : string;
  ns_xdv : string
}.

(** [os.path.join(HERE, 'compiler.xsl')] *)
Definition COMPILER_PATH : source := Filename "compiler.xsl".

(* ================================================================= *)
(** ** [compiler.py]: theme URL rewriter *)

Module compiler.

(** [(@import\s+(?:url\(Q?|Q))(.+)(Q?\)|Q)] under [re.IGNORECASE],
    where [Q] stands for the class of the single and the double quote. *)
Definition IMPORT_STYLESHEET : re.regex :=
  re.Cat
    (re.Group 1
       (re.Cat (re.lit_i "@import")
          (re.Cat (re.Plus re.space)
             (re.Alt (re.Cat (re.lit_i "url(") (re.Opt (re.Chr re.quote)))
                     (re.Chr re.quote)))))
    (re.Cat
       (re.Group 2 (re.Plus re.dot))
       (re.Group 3
          (re.Alt (re.Cat (re.Opt (re.Chr re.quote)) (re.Chr (re.is_char ")")))
                  (re.Chr re.quote)))).

Definition joined (prefix path : string) : string := prefix ++ "/" ++ path.

(** Make a url/path into an absolute URL by applying the given prefix. *)
Definition to_absolute (os_path : OsPath) (path prefix : string) : string :=
  if Py.startswith "/" path || Py.contains "://" path then path
  else
    let absolute := joined prefix path in
    if Py.contains "://" absolute then absolute
    else
      let normalized := os_path_normpath os_path absolute in
      if negb (Ascii.eqb (os_path_sep os_path) "/"%char)
      then Py.replace (os_path_sep os_path) "/"%char normalized
      else normalized.

(** The [lambda match: ...] handed to [IMPORT_STYLESHEET.sub]. *)
Definition import_repl (os_path : OsPath) (absolute_prefix : string) (g : re.groups)
  : string :=
  re.group 1 g ++ to_absolute os_path (re.group 2 g) absolute_prefix ++ re.group 3 g.

Definition sub_imports (os_path : OsPath) (absolute_prefix text : string) : string :=
  re.sub IMPORT_STYLESHEET (import_repl os_path absolute_prefix) text.

(** [*//style | *//script | *//img | *//link | *//input | *//comment()]:
    the node tests of the last step. *)
Definition selected (n : node) : bool :=
  etree.name_test "style" n || etree.name_test "script" n || etree.name_test "img" n
  || etree.name_test "link" n || etree.name_test "input" n || etree.is_comment n.

(** [if value: node.set(key, to_absolute(value, absolute_prefix))] *)
Definition rewrite_attrib (os_path : OsPath) (absolute_prefix key : string)
  (attrib : list (string * string)) : list (string * string) :=
  match etree.get key attrib with
  | Some v =>
      if String.eqb v "" then attrib
      else etree.set key (to_absolute os_path v absolute_prefix) attrib
  | None => attrib
  end.

(** The body of the [for] loop for one node.  The tag of a comment is
    [etree.Comment], no string; [sub] raises on [None]. *)
Definition loop_body (os_path : OsPath) (absolute_prefix : string) (n : node)
  : result node :=
  match n with
  | Element ns tag attrib text children tail =>
      let node_tag := etree.tag_of ns tag in
      if String.eqb node_tag "img" || String.eqb node_tag "script"
         || String.eqb node_tag "input" then
        Ok (Element ns tag (rewrite_attrib os_path absolute_prefix "src" attrib)
              text children tail)
      else if String.eqb node_tag "link" then
        Ok (Element ns tag (rewrite_attrib os_path absolute_prefix "href" attrib)
              text children tail)
      else if String.eqb node_tag "style" then
        match text with
        | Some t =>
            Ok (Element ns tag attrib (Some (sub_imports os_path absolute_prefix t))
                  children tail)
        | None => Raise (TypeError "expected string or buffer")
        end
      else Ok n
  | Comment text tail =>
      if Py.startswith "[if IE" text
      then Ok (Comment (sub_imports os_path absolute_prefix text) tail)
      else Ok n
  end.

(** A node reached by [//] and everything below it, in document order. *)
Fixpoint visit (os_path : OsPath) (absolute_prefix : string) (n : node)
  : result node :=
  match n with
  | Element _ _ _ _ children _ =>
      n' <- (if selected n then loop_body os_path absolute_prefix n else Ok n) ;;
      cs <- (fix visit_all (l : list node) : result (list node) :=
               match l with
               | [] => Ok []
               | c :: l' =>
                   c' <- visit os_path absolute_prefix c ;;
                   cs' <- visit_all l' ;;
                   Ok (c' :: cs')
               end) children ;;
      Ok (etree.set_children n' cs)
  | Comment _ _ => loop_body os_path absolute_prefix n
  end.

(** The step [*]: an element child of the context node; the loop only
    sees what is below it. *)
Definition visit_below (os_path : OsPath) (absolute_prefix : string) (n : node)
  : result node :=
  match n with
  | Element _ _ _ _ children _ =>
      cs <- etree.mapM (visit os_path absolute_prefix) children ;;
      Ok (etree.set_children n cs)
  | Comment _ _ => Ok n
  end.

Definition strip_slash (absolute_prefix : string) : string :=
  if Py.endswith "/" absolute_prefix then Py.drop_last absolute_prefix
  else absolute_prefix.

(** [theme_doc] is given by its root element, the context node of the
    relative XPath expression. *)
Definition apply_absolute_prefix (os_path : OsPath) (theme_doc : node)
  (absolute_prefix : string) : result node :=
  let absolute_prefix := strip_slash absolute_prefix in
  match theme_doc with
  | Element _ _ _ _ children _ =>
      cs <- etree.mapM (visit_below os_path absolute_prefix) children ;;
      Ok (etree.set_children theme_doc cs)
  | Comment _ _ => Ok theme_doc
  end.

(** Every style element (in no namespace) at or below the node has a
    text. *)
Fixpoint styles_have_text (n : node) : bool :=
  match n with
  | Element _ _ _ text children _ =>
      (if etree.name_test "style" n
       then match text with Some _ => true | None => false end
       else true)
      && forallb styles_have_text children
  | Comment _ _ => true
  end.

(** *** Namespace migrator *)

(** [//*[namespace-uri()=uri]]: the elements of that namespace, in
    document order. *)
Fixpoint xpath_namespace_uri (uri : string) (n : node) : list node :=
  match n with
  | Element ns _ _ _ children _ =>
      ((if String.eqb ns uri then [n] else [])
         ++ flat_map (xpath_namespace_uri uri) children)%list
  | Comment _ _ => []
  end.

(** Modelled from the spec: [update_transform], the stylesheet
    [update-namespace.xsl], is not among the sources.  It produces
    a new rules document in the current namespace with structurally
    equivalent rules: every element of the deprecated namespace is
    rebuilt under the same local name in the current one, everything
    else is copied. *)
Fixpoint update_transform (namespaces : Namespaces) (n : node) : node :=
  match n with
  | Element ns tag attrib text children tail =>
      Element (if String.eqb ns (ns_old namespaces) then ns_xdv namespaces else ns)
        tag attrib text (map (update_transform namespaces) children) tail
  | Comment _ _ => n
  end.

(** Structural equivalence of rules documents: the same tree, except
    that an element of the deprecated namespace may have moved to the
    current one. *)
Inductive equivalent (namespaces : Namespaces) : node -> node -> Prop :=
| equivalent_element ns ns' tag attrib text cs cs' tail :
    ns' = ns \/ (ns = ns_old namespaces /\ ns' = ns_xdv namespaces) ->
    Forall2 (equivalent namespaces) cs cs' ->
    equivalent namespaces (Element ns tag attrib text cs tail)
      (Element ns' tag attrib text cs' tail)
| equivalent_comment text tail :
    equivalent namespaces (Comment text tail) (Comment text tail).

Definition deprecation_warning (namespaces : Namespaces) : string :=
  "The " ++ ns_old namespaces ++ " namespace is deprecated, use "
  ++ ns_xdv namespaces ++ " instead.".

(** Convert old namespace to new namespace. *)
Definition update_namespace (namespaces : Namespaces) (rules : node) : M node :=
  match xpath_namespace_uri (ns_old namespaces) rules with
  | _ :: _ =>
      _ <~ logger_warning (deprecation_warning namespaces) ;;
      ret (update_transform namespaces rules)
  | [] => ret rules
  end.

(** *** Virtual document resolver *)

Module CompileResolver.

Record t : Type := { rules : string; extra : option string }.

(** [CompileResolver(rules, extra=None)] *)
Definition __init__ (rules : string) (extra : option string) : t :=
  {| rules := rules; extra := extra |}.

Definition resolve (self : t) (url : string) : option InputDocument :=
  if String.eqb url "__xdv__rules" then Some (resolve_string (rules self))
  else
    match extra self with
    | Some e =>
        if String.eqb url "__xdv__extra" then Some (resolve_string e) else None
    | None => None
    end.

End CompileResolver.

(** *** Rule compiler *)

Module Args.

(** The parameters of [compile_theme]. *)
Record t : Type := {
  rules : string;
  theme : string;
  extra : option string;
  css : bool;
  xinclude : bool;
  absolute_prefix : option string;
  update : bool;
  trace : bool;
  includemode : option string;
  parser : option Parser;
  compiler_parser : option Parser;
  rules_parser : option Parser;
  access_control : option XSLTAccessControl
}.

End Args.

(** What [compile_theme] has built when it calls the compiler
    transform: the transform, the theme document, the parameters and
    the parser whose resolvers the transform consults. *)
Record Prepared : Type := {
  compiler_transform : XSLT;
  theme_doc : node;
  params : list (string * string);
  compiler_parser : Parser
}.

Definition when (b : bool) (f : node -> M node) (d : node) : M node :=
  if b then f d else ret d.

Definition prepare (env : Env) (os_path : OsPath) (namespaces : Namespaces)
  (a : Args.t) : M Prepared :=
  let rules_parser :=
    match Args.rules_parser a with
    | Some p => p
    | None => XMLParser
    end in
  rules_doc <~ lift (etree_parse env rules_parser (Filename (Args.rules a))) ;;
  rules_doc <~ when (Args.xinclude a) (fun d => lift (etree_xinclude env d)) rules_doc ;;
  rules_doc <~ when (Args.update a) (update_namespace namespaces) rules_doc ;;
  rules_doc <~ when (Args.css a) (fun d => lift (convert_css_selectors env d)) rules_doc ;;
  let parser :=
    match Args.parser a with
    | Some p => p
    | None => HTMLParser
    end in
  theme_doc <~ lift (etree_parse env parser (Filename (Args.theme a))) ;;
  theme_doc <~
    (match Args.absolute_prefix a with
     | Some p =>
         if String.eqb p "" then ret theme_doc
         else lift (apply_absolute_prefix os_path theme_doc p)
     | None => ret theme_doc
     end) ;;
  let compiler_parser :=
    match Args.compiler_parser a with
    | Some p => p
    | None => XMLParser
    end in
  let access_control :=
    match Args.access_control a with
    | Some ac => ac
    | None =>
        {| read_file := true; write_file := false; create_dir := false;
           read_network := false; write_network := false |}
    end in
  compiler_doc <~ lift (etree_parse env compiler_parser COMPILER_PATH) ;;
  compiler_transform <~ lift (etree_XSLT env compiler_doc access_control) ;;
  let params := [("rulesuri", "'__xdv__rules'")] in
  pr <~
    (if Py.truthy (Args.extra a) then
       match Args.extra a with
       | Some e =>
           extra_doc <~ lift (etree_parse env XMLParser (Filename e)) ;;
           ret ((params ++ [("extraurl", "'__xdv__extra'")])%list,
                CompileResolver.__init__ (etree_tostring env rules_doc)
                  (Some (etree_tostring env extra_doc)))
       | None => ret (params, CompileResolver.__init__ (etree_tostring env rules_doc) None)
       end
     else ret (params, CompileResolver.__init__ (etree_tostring env rules_doc) None)) ;;
  let '(params, resolver) := pr in
  let params := if Args.trace a then (params ++ [("trace", "1")])%list else params in
  let params :=
    match Args.includemode a with
    | Some m =>
        if String.eqb m "" then params
        else (params ++ [("includemode", ("'" ++ m ++ "'")%string)])%list
    | None => params
    end in
  ret {| compiler_transform := compiler_transform;
         theme_doc := theme_doc;
         params := params;
         compiler_parser := resolvers_add compiler_parser (CompileResolver.resolve resolver) |}.

Fixpoint log_each (lvl : level) (msgs : list string) : M unit :=
  match msgs with
  | [] => ret tt
  | msg :: rest => _ <~ logger_log lvl msg ;; log_each lvl rest
  end.

(** Invoke the xdv compiler.  Besides the compiled transform the value
    holds the compiler parser after the call: a parser passed in by the
    caller keeps the resolver added to it. *)
Definition compile_theme (env : Env) (os_path : OsPath) (namespaces : Namespaces)
  (a : Args.t) : M (node * Parser) :=
  p <~ prepare env os_path namespaces a ;;
  out <~ lift (XSLT_call env (compiler_transform p) (resolvers (compiler_parser p))
                 (theme_doc p) (params p)) ;;
  _ <~ log_each INFO (snd out) ;;
  ret (fst out, compiler_parser p).

(** *** The unordered registry of resolvers

    lxml keeps the resolvers of a parser in a set and asks them in the
    order in which the set iterates, which depends on where the
    resolver objects lie in memory and not on the program.
    [compile_theme] above asks them in the order of registration, one
    of the orders a call may take. *)



(** *** The body of [compile_theme] on any two sources

    A keyword call binds whatever it is given to [rules] and [theme]:
    the body below is that of [prepare] and [compile_theme] with the two
    sources as parameters.  The record gives the other eleven
    parameters; its fields [rules] and [theme] are not read. *)

(** The steps of [compile_theme] before the call of the transform. *)
Definition prepare_from (env : Env) (os_path : OsPath) (namespaces : Namespaces)
  (rules theme : source) (a : Args.t) : M Prepared :=
  let rules_parser :=
    match Args.rules_parser a with
    | Some p => p
    | None => XMLParser
    end in
  rules_doc <~ lift (etree_parse env rules_parser rules) ;;
  rules_doc <~ when (Args.xinclude a) (fun d => lift (etree_xinclude env d)) rules_doc ;;
  rules_doc <~ when (Args.update a) (update_namespace namespaces) rules_doc ;;
  rules_doc <~ when (Args.css a) (fun d => lift (convert_css_selectors env d)) rules_doc ;;
  let parser :=
    match Args.parser a with
    | Some p => p
    | None => HTMLParser
    end in
  theme_doc <~ lift (etree_parse env parser theme) ;;
  theme_doc <~
    (match Args.absolute_prefix a with
     | Some p =>
         if String.eqb p "" then ret theme_doc
         else lift (apply_absolute_prefix os_path theme_doc p)
     | None => ret theme_doc
     end) ;;
  let compiler_parser :=
    match Args.compiler_parser a with
    | Some p => p
    | None => XMLParser
    end in
  let access_control :=
    match Args.access_control a with
    | Some ac => ac
    | None =>
        {| read_file := true; write_file := false; create_dir := false;
           read_network := false; write_network := false |}
    end in
  compiler_doc <~ lift (etree_parse env compiler_parser COMPILER_PATH) ;;
  compiler_transform <~ lift (etree_XSLT env compiler_doc access_control) ;;
  let params := [("rulesuri", "'__xdv__rules'")] in
  pr <~
    (if Py.truthy (Args.extra a) then
       match Args.extra a with
       | Some e =>
           extra_doc <~ lift (etree_parse env XMLParser (Filename e)) ;;
           ret ((params ++ [("extraurl", "'__xdv__extra'")])%list,
                CompileResolver.__init__ (etree_tostring env rules_doc)
                  (Some (etree_tostring env extra_doc)))
       | None => ret (params, CompileResolver.__init__ (etree_tostring env rules_doc) None)
       end
     else ret (params, CompileResolver.__init__ (etree_tostring env rules_doc) None)) ;;
  let '(params, resolver) := pr in
  let params := if Args.trace a then (params ++ [("trace", "1")])%list else params in
  let params :=
    match Args.includemode a with
    | Some m =>
        if String.eqb m "" then params
        else (params ++ [("includemode", ("'" ++ m ++ "'")%string)])%list
    | None => params
    end in
  ret {| compiler_transform := compiler_transform;
         theme_doc := theme_doc;
         params := params;
         compiler_parser := resolvers_add compiler_parser (CompileResolver.resolve resolver) |}.

Definition compile_theme_from (env : Env) (os_path : OsPath)
  (namespaces : Namespaces) (rules theme : source) (a : Args.t)
  : M (node * Parser) :=
  p <~ prepare_from env os_path namespaces rules theme a ;;
  out <~ lift (XSLT_call env (compiler_transform p) (resolvers (compiler_parser p))
                 (theme_doc p) (params p)) ;;
  _ <~ log_each INFO (snd out) ;;
  ret (fst out, compiler_parser p).

(** *** Calling [compile_theme] with keyword arguments *)

Inductive pyobj : Type :=
| PyNone
| PyBool (b : bool)
| PyStr (s : string)
| PyParser (p : Parser)
| PyAccessControl (ac : XSLTAccessControl).

(** The names in the [def] line of [compile_theme], in order. *)
Definition compile_theme_params : list string :=
  ["rules"; "theme"; "extra"; "css"; "xinclude"; "absolute_prefix"; "update";
   "trace"; "includemode"; "parser"; "compiler_parser"; "rules_parser";
   "access_control"].

(** The first keyword of a call that names no parameter. *)
Fixpoint unexpected_keyword (names : list string) (kwargs : list (string * pyobj))
  : option string :=
  match kwargs with
  | [] => None
  | (k, _) :: rest =>
      if existsb (String.eqb k) names then unexpected_keyword names rest
      else Some k
  end.

Fixpoint kwarg (key : string) (kwargs : list (string * pyobj)) : option pyobj :=
  match kwargs with
  | [] => None
  | (k, v) :: rest => if String.eqb k key then Some v else kwarg key rest
  end.

Definition str_arg (o : option pyobj) : option string :=
  match o with
  | Some (PyStr s) => Some s
  | _ => None
  end.

Definition bool_arg (default : bool) (o : option pyobj) : bool :=
  match o with
  | Some (PyBool b) => b
  | Some PyNone => false
  | Some (PyStr s) => negb (String.eqb s "")
  | Some _ => true
  | None => default
  end.

Definition parser_arg (o : option pyobj) : option Parser :=
  match o with
  | Some (PyParser p) => Some p
  | _ => None
  end.

Definition access_control_arg (o : option pyobj) : option XSLTAccessControl :=
  match o with
  | Some (PyAccessControl ac) => Some ac
  | _ => None
  end.

(** What [etree.parse] is given for an argument: a string is a file
    name, anything else is no source. *)
Definition source_arg (o : pyobj) : source :=
  match o with
  | PyStr s => Filename s
  | _ => Other
  end.

Definition text_arg (o : pyobj) : string :=
  match o with
  | PyStr s => s
  | _ => ""
  end.

(** The parameters as bound by a keyword call, each default as in the
    [def] line. *)
Definition bind_args (r t : pyobj) (kwargs : list (string * pyobj)) : Args.t :=
  {| Args.rules := text_arg r;
     Args.theme := text_arg t;
     Args.extra := str_arg (kwarg "extra" kwargs);
     Args.css := bool_arg true (kwarg "css" kwargs);
     Args.xinclude := bool_arg true (kwarg "xinclude" kwargs);
     Args.absolute_prefix := str_arg (kwarg "absolute_prefix" kwargs);
     Args.update := bool_arg true (kwarg "update" kwargs);
     Args.trace := bool_arg false (kwarg "trace" kwargs);
     Args.includemode := str_arg (kwarg "includemode" kwargs);
     Args.parser := parser_arg (kwarg "parser" kwargs);
     Args.compiler_parser := parser_arg (kwarg "compiler_parser" kwargs);
     Args.rules_parser := parser_arg (kwarg "rules_parser" kwargs);
     Args.access_control := access_control_arg (kwarg "access_control" kwargs) |}.

(** A call [compile_theme(k1=v1, ...)]: binding the keywords to the
    parameters, then the body.  A keyword that names no parameter and a
    missing [rules] or [theme] raise before the body starts; a [rules]
    or [theme] that is bound to something else than a string reaches
    [etree.parse] as it is. *)
Definition call_compile_theme (env : Env) (os_path : OsPath)
  (namespaces : Namespaces) (kwargs : list (string * pyobj)) : M (node * Parser) :=
  match unexpected_keyword compile_theme_params kwargs with
  | Some k =>
      raise (TypeError ("compile_theme() got an unexpected keyword argument '"
                        ++ k ++ "'"))
  | None =>
      match kwarg "rules" kwargs, kwarg "theme" kwargs with
      | Some r, Some t =>
          compile_theme_from env os_path namespaces (source_arg r) (source_arg t)
            (bind_args r t kwargs)
      | _, _ => raise (TypeError "compile_theme() takes at least 2 arguments")
      end
  end.

(** *** Console script *)

Module Options.

(** The values of the option parser of the compiler script.  The
    option [--xinclude] stores [True] over a default of [True]. *)
Record t : Type := {
  pretty_print : bool;
  trace : bool;
  xinclude : bool;
  absolute_prefix : option string;
  includemode : option string;
  read_network : bool;
  theme : option string;
  rules : option string;
  extra : option string
}.

Definition set_rules_theme (o : t) (r th : string) : t :=
  {| pretty_print := pretty_print o; trace := trace o; xinclude := xinclude o;
     absolute_prefix := absolute_prefix o; includemode := includemode o;
     read_network := read_network o; theme := Some th; rules := Some r;
     extra := extra o |}.

End Options.

Definition str_or_none (o : option string) : pyobj :=
  match o with
  | Some s => PyStr s
  | None => PyNone
  end.

(** [parser.error(msg)] *)
Definition parser_error {A : Type} (msg : string) : M A := raise (SystemExit msg).

(** The rules and the theme, from the options or from the two
    positional arguments. *)
Definition arguments (options : Options.t) (args : list string) : M Options.t :=
  match Options.rules options, Options.theme options with
  | None, None =>
      match args with
      | [r; th] => ret (Options.set_rules_theme options r th)
      | _ => parser_error "Wrong number of arguments."
      end
  | Some _, Some _ => ret options
  | _, _ =>
      parser_error "Both theme and rules must be supplied as options or as arguments."
  end.

(** The keyword arguments of the call of [compile_theme] in [main]. *)
Definition main_kwargs (options : Options.t) : list (string * pyobj) :=
  let access_control :=
    {| read_file := true; write_file := false; create_dir := false;
       read_network := Options.read_network options; write_network := false |} in
  [("rules", str_or_none (Options.rules options));
   ("theme", str_or_none (Options.theme options));
   ("extra", str_or_none (Options.extra options));
   ("trace", PyBool (Options.trace options));
   ("xinclude", PyBool (Options.xinclude options));
   ("absolute_prefix", str_or_none (Options.absolute_prefix options));
   ("includemode", str_or_none (Options.includemode options));
   ("access_control", PyAccessControl access_control)].

(** Called from console script: the value is what is written to the
    output.  [logger.setLevel] leaves no record and is left out. *)
Definition main (env : Env) (os_path : OsPath) (namespaces : Namespaces)
  (options : Options.t) (args : list string) : M string :=
  options <~ arguments options args ;;
  r <~ call_compile_theme env os_path namespaces (main_kwargs options) ;;
  let output_xslt := fst r in
  ret (etree_write env output_xslt (Options.pretty_print options)).

End compiler.

(* ================================================================= *)
(** ** [run.py] *)

Module run.

(** Modelled from the spec: the preset [AC_READ_FILE] of [xdv.utils],
    which is not among the sources.  Local-read-only grants
    read-local-storage only, local-and-network-read adds read-network;
    both always deny all writes and directory creation. *)
Definition AC_READ_FILE : XSLTAccessControl :=
  {| read_file := true; write_file := false; create_dir := false;
     read_network := false; write_network := false |}.

(** Modelled from the spec: the local-and-network-read preset
    [AC_READ_NET] of [xdv.utils]. *)
Definition AC_READ_NET : XSLTAccessControl :=
  {| read_file := true; write_file := false; create_dir := false;
     read_network := true; write_network := false |}.

Module RunResolver.

Record t : Type := { directory : string }.

Definition resolve (os_path : OsPath) (self : t) (url : string)
  : option InputDocument :=
  if Py.contains "://" url || Py.startswith "/" url then
    Some (resolve_filename url)
  else
    let url := os_path_join os_path (directory self) url in
    Some (resolve_filename url).

End RunResolver.

Module Options.

(** The values of the option parser: those that [main] reads. *)
Record t : Type := {
  xsl : option string;
  rules : option string;
  theme : option string;
  extra : option string;
  trace : bool;
  read_network : bool;
  absolute_prefix : option string;
  includemode : option string;
  pretty_print : bool
}.

Definition set_xsl (o : t) (path : string) : t :=
  {| xsl := Some path; rules := rules o; theme := theme o; extra := extra o;
     trace := trace o; read_network := read_network o;
     absolute_prefix := absolute_prefix o; includemode := includemode o;
     pretty_print := pretty_print o |}.

Definition set_rules (o : t) (path : string) : t :=
  {| xsl := xsl o; rules := Some path; theme := theme o; extra := extra o;
     trace := trace o; read_network := read_network o;
     absolute_prefix := absolute_prefix o; includemode := includemode o;
     pretty_print := pretty_print o |}.

End Options.

Definition str_or_none (o : option string) : compiler.pyobj :=
  match o with
  | Some s => compiler.PyStr s
  | None => compiler.PyNone
  end.

(** [op.error(msg)] *)
Definition op_error {A : Type} (msg : string) : M A := raise (SystemExit msg).

(** The positional arguments: the options as completed from them, and
    the content path. *)
Definition arguments (options : Options.t) (args : list string)
  : M (Options.t * string) :=
  match args with
  | _ :: _ :: _ :: _ => op_error "Wrong number of arguments."
  | [path; content] =>
      if Py.truthy (Options.xsl options) || Py.truthy (Options.rules options) then
        op_error "Wrong number of arguments."
      else if Py.endswith ".xsl" (Py.lower path) then
        ret (Options.set_xsl options path, content)
      else ret (Options.set_rules options path, content)
  | [content] => ret (options, content)
  | [] => op_error "Wrong number of arguments."
  end.

(** The keyword arguments of the call of [compile_theme] in [main]. *)
Definition compile_theme_kwargs (options : Options.t) (parser : Parser)
  : list (string * compiler.pyobj) :=
  [("rules", str_or_none (Options.rules options));
   ("theme", str_or_none (Options.theme options));
   ("extra", str_or_none (Options.extra options));
   ("parser", compiler.PyParser parser);
   ("read_network", compiler.PyBool (Options.read_network options));
   ("absolute_prefix", str_or_none (Options.absolute_prefix options));
   ("includemode", str_or_none (Options.includemode options))].

(** Called from console script: the value is what is written to the
    output.  [logger.setLevel] leaves no record and is left out. *)
Definition main (env : Env) (os_path : OsPath) (namespaces : Namespaces)
  (options : Options.t) (args : list string) : M string :=
  oc <~ arguments options args ;;
  let options := fst oc in
  let content := snd oc in
  _ <~ (match Options.rules options, Options.xsl options with
        | None, None => op_error "Must supply either options or rules"
        | _, _ => ret tt
        end) ;;
  let parser :=
    resolvers_add HTMLParser
      (RunResolver.resolve os_path
         {| RunResolver.directory := os_path_dirname os_path content |}) in
  output_xslt <~
    (match Options.xsl options with
     | Some x => lift (etree_parse env XMLParser (Filename x))
     | None =>
         r <~ compiler.call_compile_theme env os_path namespaces
                (compile_theme_kwargs options parser) ;;
         ret (fst r)
     end) ;;
  let content := if String.eqb content "-" then Stdin else Filename content in
  let access_control :=
    if Options.read_network options then AC_READ_NET else AC_READ_FILE in
  transform <~ lift (etree_XSLT env output_xslt access_control) ;;
  content_doc <~ lift (etree_parse env parser content) ;;
  out <~ lift (XSLT_call env transform [] content_doc []) ;;
  let written := etree_write env (fst out) (Options.pretty_print options) in
  _ <~ compiler.log_each WARNING (snd out) ;;
  ret written.

End run.

(* ================================================================= *)
(** ** What the rewriter may touch *)

Module frame.

(** The attributes without those of one name. *)
Definition without (key : string) (attrib : list (string * string))
  : list (string * string) :=
  filter (fun kv => negb (String.eqb (fst kv) key)) attrib.

(** A document with everything the loop of [apply_absolute_prefix] can
    write blanked out: the [src] of [img], [script] and [input]
    elements, the [href] of [link] elements, the text of [style]
    elements (all in no namespace) and the text of comments that start
    with [[if IE]. *)
Fixpoint mask (n : node) : node :=
  match n with
  | Element ns tag attrib text children tail =>
      let cs := map mask children in
      if etree.name_test "img" n || etree.name_test "script" n
         || etree.name_test "input" n then
        Element ns tag (without "src" attrib) text cs tail
      else if etree.name_test "link" n then
        Element ns tag (without "href" attrib) text cs tail
      else if etree.name_test "style" n then
        Element ns tag attrib None cs tail
      else Element ns tag attrib text cs tail
  | Comment text tail =>
      if Py.startswith "[if IE" text then Comment "[if IE" tail else n
  end.

(** A character that is no quote, no closing parenthesis and no [@]. *)
Definition plain (c : ascii) : bool :=
  negb (re.quote c) && negb (Ascii.eqb c ")") && negb (Ascii.eqb c "@").

(** The first group of [IMPORT_STYLESHEET] and what follows it. *)
Definition import_head : re.regex :=
  re.Group 1
    (re.Cat (re.lit_i "@import")
       (re.Cat (re.Plus re.space)
          (re.Alt (re.Cat (re.lit_i "url(") (re.Opt (re.Chr re.quote)))
                  (re.Chr re.quote)))).

Definition import_tail : re.regex :=
  re.Cat
    (re.Group 2 (re.Plus re.dot))
    (re.Group 3
       (re.Alt (re.Cat (re.Opt (re.Chr re.quote)) (re.Chr (re.is_char ")")))
               (re.Chr re.quote))).

(** Two nodes that differ at most in their children. *)
Definition same_but_children (n n' : node) : Prop :=
  n' = etree.set_children n (etree.children_of n').


End frame.

(* ================================================================= *)
(** ** Instances used in the examples *)

Module example.

(** The two namespace URIs as the package's [utils] has them. *)
Definition namespaces : Namespaces :=
  {| ns_old := "http://openplans.org/deliverance";
     ns_xdv := "http://namespaces.plone.org/xdv" |}.

Definition leaf (ns tag : string) (attrib : list (string * string)) : node :=
  Element ns tag attrib None [] None.

(** A rules document of one [copy] rule, in the deprecated namespace. *)
Definition old_rules : node :=
  Element (ns_old namespaces) "rules" [] None
    [leaf (ns_old namespaces) "copy"
       [("content", "//div[@id='content-wrapper']");
        ("theme", "//div[@id='page-content']")]]
    None.

(** The same rules in the current namespace. *)
Definition xdv_rules : node :=
  Element (ns_xdv namespaces) "rules" [] None
    [leaf (ns_xdv namespaces) "copy"
       [("content", "//div[@id='content-wrapper']");
        ("theme", "//div[@id='page-content']")]]
    None.

(** A theme with an image and an inline style. *)
Definition theme : node :=
  Element "" "html" [] None
    [Element "" "head" [] None
       [Element "" "style" [] (Some "@import url(css/site.css);") [] None] None;
     Element "" "body" [] None
       [Element "" "div" [("id", "page-content")] None
          [leaf "" "img" [("src", "images/foo.jpg")]] None] None]
    None.

Fixpoint serialize (n : node) : string :=
  match n with
  | Element _ tag _ _ children _ =>
      "<" ++ tag ++ ">" ++ String.concat "" (map serialize children)
      ++ "</" ++ tag ++ ">"
  | Comment text _ => "<!--" ++ text ++ "-->"
  end.

(** A file system of three documents and an engine that hands back the
    document it is applied to. *)
Definition env : Env :=
  {| etree_parse := fun _ src =>
       match src with
       | Filename name =>
           if String.eqb name "rules.xml" then Ok old_rules
           else if String.eqb name "theme.html" then Ok theme
           else if String.eqb name "compiler.xsl" then Ok (leaf "" "stylesheet" [])
           else Raise (ParseError name)
       | Stdin => Raise (ParseError "-")
       | Other => Raise (TypeError "cannot parse from 'NoneType'")
       end;
     etree_xinclude := fun d => Ok d;
     etree_tostring := serialize;
     XSLT_accepts := fun _ => Ok tt;
     XSLT_call := fun _ _ doc _ => Ok (doc, []);
     etree_write := fun d _ => serialize d;
     convert_css_selectors := fun d => Ok d |}.







Definition page (head : list node) : node :=
  Element "" "html" [] None
    [Element "" "head" [] None head None; Element "" "body" [] None [] None]
    None.

(** [<style></style>], as the HTML parser gives it. *)
Definition empty_style : node := Element "" "style" [] None [] None.

(** An import and a rule on one line, the rule with a
    protocol-relative url. *)
Definition one_line_css : string :=
  "@import url(a.css); body { background: url(//cdn.example.com/bg.png) }".

Definition style (text : string) : node :=
  Element "" "style" [("type", "text/css")] (Some text) [] None.

(** A head with a link under the root element itself. *)
Definition flat_theme : node :=
  Element "" "html" [] None
    [leaf "" "link" [("rel", "stylesheet"); ("href", "site.css")];
     Element "" "body" [] None
       [leaf "" "script" [("src", "js/site.js"); ("type", "text/javascript")];
        Comment "[if IE]><style>@import url(ie.css);</style><![endif]" None]
       None]
    None.

Definition args : compiler.Args.t :=
  {| compiler.Args.rules := "rules.xml";
     compiler.Args.theme := "theme.html";
     compiler.Args.extra := None;
     compiler.Args.css := true;
     compiler.Args.xinclude := true;
     compiler.Args.absolute_prefix := Some "/static/";
     compiler.Args.update := true;
     compiler.Args.trace := false;
     compiler.Args.includemode := None;
     compiler.Args.parser := None;
     compiler.Args.compiler_parser := None;
     compiler.Args.rules_parser := None;
     compiler.Args.access_control := None |}.

Definition compiler_options : compiler.Options.t :=
  {| compiler.Options.pretty_print := false;
     compiler.Options.trace := false;
     compiler.Options.xinclude := true;
     compiler.Options.absolute_prefix := Some "/static";
     compiler.Options.includemode := None;
     compiler.Options.read_network := false;
     compiler.Options.theme := None;
     compiler.Options.rules := None;
     compiler.Options.extra := None |}.

Definition xsl_options : run.Options.t :=
  {| run.Options.xsl := Some "theme.xsl";
     run.Options.rules := None;
     run.Options.theme := None;
     run.Options.extra := None;
     run.Options.trace := false;
     run.Options.read_network := false;
     run.Options.absolute_prefix := None;
     run.Options.includemode := None;
     run.Options.pretty_print := false |}.

Definition options : run.Options.t :=
  {| run.Options.xsl := None;
     run.Options.rules := Some "rules.xml";
     run.Options.theme := Some "theme.html";
     run.Options.extra := None;
     run.Options.trace := false;
     run.Options.read_network := false;
     run.Options.absolute_prefix := None;
     run.Options.includemode := None;
     run.Options.pretty_print := false |}.

End example.

(* ================================================================= *)
(** ** Properties *)

(** *** Strings *)

Lemma replace_same (c : ascii) (s : string) : Py.replace c c s = s.
Proof.
  induction s as [|a s IH]; simpl; [reflexivity|].
  rewrite IH. destruct (Ascii.eqb a c) eqn:E; [|reflexivity].
  apply Ascii.eqb_eq in E. now subst.
Qed.

Lemma replace_removes (a b : ascii) (s : string) :
  a <> b -> Py.has_char a (Py.replace a b s) = false.
Proof.
  intros Hab. induction s as [|c s IH]; simpl; [reflexivity|].
  rewrite IH, orb_false_r.
  destruct (Ascii.eqb c a) eqn:E.
  - apply Ascii.eqb_neq. congruence.
  - exact E.
Qed.

Lemma endswith_app_slash (p : string) : Py.endswith "/" (p ++ "/") = true.
Proof.
  induction p as [|c p IH]; [reflexivity|].
  change ((String c p) ++ "/") with (String c (p ++ "/")).
  cbn [Py.endswith]. rewrite IH. apply orb_true_r.
Qed.

Lemma drop_last_app_slash (p : string) : Py.drop_last (p ++ "/") = p.
Proof.
  induction p as [|c p IH]; [reflexivity|].
  change ((String c p) ++ "/") with (String c (p ++ "/")).
  cbn [Py.drop_last]. rewrite IH.
  destruct p; reflexivity.
Qed.

Lemma set_get_same (key v : string) (attrib : list (string * string)) :
  etree.get key attrib = Some v -> etree.set key v attrib = attrib.
Proof.
  induction attrib as [|[k w] rest IH]; simpl; [discriminate|].
  destruct (String.eqb k key) eqn:E.
  - intros [= ->]. reflexivity.
  - intros H. now rewrite IH.
Qed.

(** *** [posixpath.normpath] *)

Lemma split_no_sep (c : ascii) (s : string) :
  Forall (fun x => Py.has_char c x = false) (Py.split c s).
Proof.
  induction s as [|a s IH]; simpl.
  - constructor; [reflexivity|constructor].
  - destruct (Ascii.eqb a c) eqn:E.
    + constructor; [reflexivity|exact IH].
    + destruct (Py.split c s) as [|h t].
      * constructor; [simpl; now rewrite E|constructor].
      * inversion IH as [|? ? Hh Ht]; subst.
        constructor; [simpl; now rewrite E, Hh|exact Ht].
Qed.

Lemma in_removelast {A : Type} (x : A) (l : list A) :
  In x (removelast l) -> In x l.
Proof.
  induction l as [|a l IH]; simpl; [tauto|].
  destruct l as [|b l]; simpl in *; [tauto|].
  intros [H|H]; [now left|right; now apply IH].
Qed.

Lemma last_in {A : Type} (d : A) (l : list A) : l <> [] -> In (last l d) l.
Proof.
  induction l as [|a l IH]; [congruence|].
  intros _. destruct l as [|b l]; [now left|].
  right. apply IH. discriminate.
Qed.

Lemma last_repeat_app (x : string) (k : nat) (rest : list string) :
  rest <> [] -> last (repeat x k ++ rest) "" = last rest "".
Proof.
  intros H. induction k as [|k IH]; [reflexivity|].
  simpl. destruct (repeat x k ++ rest)%list eqn:E; [|exact IH].
  apply app_eq_nil in E. tauto.
Qed.

Lemma step_normal (i : nat) (cs : list string) (comp : string) :
  posixpath.normal i cs -> Py.has_char "/" comp = false ->
  posixpath.normal i (posixpath.step i cs comp).
Proof.
  intros [HF (k & rest & Hcs & Hni & Hk)] Hslash. unfold posixpath.step.
  destruct (String.eqb comp "") eqn:E0; simpl.
  { split; [exact HF|now exists k, rest]. }
  destruct (String.eqb comp ".") eqn:E1; simpl.
  { split; [exact HF|now exists k, rest]. }
  apply String.eqb_neq in E0, E1.
  assert (HFapp : Forall (fun c => c <> "" /\ c <> "." /\ Py.has_char "/" c = false)
                    (cs ++ [comp])).
  { apply Forall_app. split; [exact HF|]. constructor; [tauto|constructor]. }
  destruct (String.eqb comp "..") eqn:E2; cbn [negb orb].
  - apply String.eqb_eq in E2. subst comp.
    destruct cs as [|c0 cs'] eqn:Ecs.
    + (* nothing kept so far *)
      rewrite andb_true_r, orb_false_r.
      destruct (Nat.eqb i 0) eqn:Ei.
      * split; [exact HFapp|]. exists 1, []. simpl.
        apply Nat.eqb_eq in Ei. repeat split; [tauto|congruence].
      * split; [exact HF|]. now exists k, rest.
    + rewrite andb_false_r. cbn [orb]. rewrite <- Ecs in *.
      assert (Hne : cs <> []) by (rewrite Ecs; discriminate).
      destruct (String.eqb (last cs "") "..") eqn:El.
      * (* the last kept component is '..': all of them are *)
        apply String.eqb_eq in El.
        assert (Hrest : rest = []).
        { destruct rest as [|r0 rest']; [reflexivity|]. exfalso. apply Hni.
          rewrite <- El, Hcs, last_repeat_app by discriminate.
          apply last_in. discriminate. }
        subst rest. rewrite app_nil_r in Hcs.
        split; [exact HFapp|]. exists (S k), []. rewrite app_nil_r.
        repeat split.
        -- rewrite Hcs. simpl. now rewrite repeat_cons.
        -- tauto.
        -- intros Hi. specialize (Hk Hi). subst k. simpl in Hcs. congruence.
      * (* pop *)
        apply String.eqb_neq in El.
        assert (Hrest : rest <> []).
        { intros ->. rewrite app_nil_r in Hcs. apply El. rewrite Hcs.
          destruct k as [|k']; [simpl in Hcs; congruence|].
          clear. induction k' as [|k' IH]; [reflexivity|].
          change (repeat ".." (S (S k'))) with (".." :: repeat ".." (S k')).
          exact IH. }
        split.
        -- rewrite (app_removelast_last "" Hne) in HF.
           apply Forall_app in HF. tauto.
        -- exists k, (removelast rest). repeat split.
           ++ rewrite Hcs. now apply removelast_app.
           ++ intros Hin. apply Hni. now apply in_removelast.
           ++ exact Hk.
  - apply String.eqb_neq in E2.
    split; [exact HFapp|]. exists k, (rest ++ [comp])%list. repeat split.
    + rewrite Hcs. now rewrite app_assoc.
    + intros Hin. apply in_app_or in Hin. destruct Hin as [Hin|[Hin|[]]]; [tauto|congruence].
    + exact Hk.
Qed.

Lemma fold_step_normal (i : nat) (l acc : list string) :
  posixpath.normal i acc ->
  Forall (fun x => Py.has_char "/" x = false) l ->
  posixpath.normal i (fold_left (posixpath.step i) l acc).
Proof.
  revert acc. induction l as [|c l IH]; intros acc Hacc Hl; simpl; [exact Hacc|].
  inversion Hl; subst. apply IH; [now apply step_normal|assumption].
Qed.

Lemma new_comps_normal (path : string) :
  posixpath.normal (posixpath.initial_slashes path) (posixpath.new_comps path).
Proof.
  unfold posixpath.new_comps. apply fold_step_normal.
  - split; [constructor|]. exists 0, []. repeat split; auto.
  - apply split_no_sep.
Qed.

(** *** Theme URL rewriter: [to_absolute] *)

Lemma joined_not_empty (p r : string) : String.eqb (p ++ "/" ++ r) "" = false.
Proof. destruct p; reflexivity. Qed.

Lemma strip_slash_app_slash (p : string) : compiler.strip_slash (p ++ "/") = p.
Proof.
  unfold compiler.strip_slash.
  now rewrite endswith_app_slash, drop_last_app_slash.
Qed.

(** C1.  For a relative reference [r] (no leading slash, no [://]) and
    any prefix [p], [to_absolute r p] is the join [p/r] when that join
    holds [://], and otherwise the host's [normpath] of the join with
    the host separator turned into a forward slash: no host separator
    is left on a host whose separator is not the slash.  On a POSIX
    host the value is [normpath] of the join: the initial slashes
    followed by the kept components joined by single slashes, where no
    component is empty or ['.'] and ['..'] only leads a relative path.
    The caller hands over the prefix without its trailing slash. *)
Theorem to_absolute_relative (os_path : OsPath) (p r : string) :
  Py.startswith "/" r = false ->
  Py.contains "://" r = false ->
  let absolute := p ++ "/" ++ r in
  compiler.to_absolute os_path r p =
    (if Py.contains "://" absolute then absolute
     else Py.replace (os_path_sep os_path) "/" (os_path_normpath os_path absolute))
  /\ (Py.contains "://" absolute = false ->
      os_path_sep os_path <> "/"%char ->
      Py.has_char (os_path_sep os_path) (compiler.to_absolute os_path r p) = false)
  /\ (Py.contains "://" absolute = false ->
      compiler.to_absolute posixpath.os_path r p = posixpath.normpath absolute
      /\ posixpath.normpath absolute =
           (let q := posixpath.slashes (posixpath.initial_slashes absolute)
                     ++ Py.join "/" (posixpath.new_comps absolute) in
            if String.eqb q "" then "." else q)
      /\ posixpath.normal (posixpath.initial_slashes absolute)
           (posixpath.new_comps absolute))
  /\ compiler.strip_slash (p ++ "/") = p.
Proof.
  intros Hslash Hnet absolute.
  assert (Heq : forall os,
             compiler.to_absolute os r p =
               (if Py.contains "://" absolute then absolute
                else Py.replace (os_path_sep os) "/" (os_path_normpath os absolute))).
  { intros os. unfold compiler.to_absolute, compiler.joined.
    rewrite Hslash, Hnet. cbn [orb]. fold absolute.
    destruct (Py.contains "://" absolute); [reflexivity|].
    destruct (Ascii.eqb (os_path_sep os) "/") eqn:E; cbn [negb]; [|reflexivity].
    apply Ascii.eqb_eq in E. rewrite E. now rewrite replace_same. }
  split; [apply Heq|]. split; [|split].
  - intros Hn Hsep. rewrite Heq, Hn. now apply replace_removes.
  - intros Hn. split; [|split].
    + rewrite Heq, Hn. apply replace_same.
    + unfold posixpath.normpath. subst absolute. now rewrite joined_not_empty.
    + apply new_comps_normal.
  - apply strip_slash_app_slash.
Qed.

Lemma to_absolute_relative_witness :
  Py.startswith "/" "images/../css/./site.css" = false
  /\ Py.contains "://" "images/../css/./site.css" = false
  /\ compiler.to_absolute posixpath.os_path "images/../css/./site.css" "/static"
     = "/static/css/site.css".
Proof.
  split; [reflexivity|]. split; [reflexivity|].
  destruct (to_absolute_relative posixpath.os_path "/static"
              "images/../css/./site.css" eq_refl eq_refl) as [H _].
  rewrite H. reflexivity.
Defined.

(** C2.  A reference that begins with a slash or holds [://] is
    returned unchanged whatever the prefix, so applying [to_absolute]
    again changes nothing, and the attribute rewritten with it keeps
    its value. *)
Theorem to_absolute_absolute (os_path : OsPath) (r p : string) :
  Py.startswith "/" r = true \/ Py.contains "://" r = true ->
  compiler.to_absolute os_path r p = r
  /\ compiler.to_absolute os_path (compiler.to_absolute os_path r p) p
     = compiler.to_absolute os_path r p
  /\ (forall key attrib,
        etree.get key attrib = Some r ->
        compiler.rewrite_attrib os_path p key attrib = attrib).
Proof.
  intros H.
  assert (E : compiler.to_absolute os_path r p = r).
  { unfold compiler.to_absolute. destruct H as [-> | ->]; [reflexivity|].
    now rewrite orb_true_r. }
  split; [exact E|]. split; [now rewrite !E|].
  intros key attrib Hget. unfold compiler.rewrite_attrib. rewrite Hget.
  destruct (String.eqb r ""); [reflexivity|].
  rewrite E. now apply set_get_same.
Qed.

Lemma to_absolute_absolute_witness :
  Py.contains "://" "http://example.org/a/../b.css" = true
  /\ compiler.to_absolute posixpath.os_path "http://example.org/a/../b.css" "/static"
     = "http://example.org/a/../b.css".
Proof.
  split; [reflexivity|].
  exact (proj1 (to_absolute_absolute posixpath.os_path
                  "http://example.org/a/../b.css" "/static" (or_intror eq_refl))).
Defined.

(** *** Namespace migrator *)

Lemma node_induction (P : node -> Prop) :
  (forall ns tag attrib text cs tail,
      Forall P cs -> P (Element ns tag attrib text cs tail)) ->
  (forall text tail, P (Comment text tail)) ->
  forall n, P n.
Proof.
  intros HE HC. fix IH 1. intros [ns tag attrib text cs tail|text tail].
  - apply HE. induction cs as [|c cs IHcs]; constructor; [apply IH|exact IHcs].
  - apply HC.
Qed.

Lemma flat_map_nil {A B : Type} (f : A -> list B) (l : list A) :
  Forall (fun a => f a = []) l -> flat_map f l = [].
Proof.
  induction 1 as [|a l Ha _ IH]; simpl; [reflexivity|]. now rewrite Ha, IH.
Qed.

Lemma update_transform_no_old (namespaces : Namespaces) (n : node) :
  ns_old namespaces <> ns_xdv namespaces ->
  compiler.xpath_namespace_uri (ns_old namespaces)
    (compiler.update_transform namespaces n) = [].
Proof.
  intros Hne. induction n as [ns tag attrib text cs tail IH|text tail]
    using node_induction; [|reflexivity].
  cbn [compiler.update_transform compiler.xpath_namespace_uri].
  rewrite flat_map_nil.
  - destruct (String.eqb ns (ns_old namespaces)) eqn:E.
    + assert (E' : String.eqb (ns_xdv namespaces) (ns_old namespaces) = false)
        by (apply String.eqb_neq; congruence).
      now rewrite E'.
    + now rewrite E.
  - apply Forall_map. exact IH.
Qed.

Lemma update_transform_equivalent (namespaces : Namespaces) (n : node) :
  compiler.equivalent namespaces n (compiler.update_transform namespaces n).
Proof.
  induction n as [ns tag attrib text cs tail IH|text tail] using node_induction;
    [|constructor].
  cbn [compiler.update_transform]. constructor.
  - destruct (String.eqb ns (ns_old namespaces)) eqn:E; [|now left].
    apply String.eqb_eq in E. now right.
  - induction IH as [|c cs Hc _ IHcs]; constructor; assumption.
Qed.

(** C3.  A rules document without an element of the deprecated
    namespace comes back as it is and nothing is logged.  With such an
    element exactly one record, a warning, is added to the log, and the
    value is the document made by the namespace-update transform: it
    has no element of the deprecated namespace left and is structurally
    equivalent to the rules given. *)
Theorem update_namespace_migrates (namespaces : Namespaces) (rules : node) (l : log) :
  ns_old namespaces <> ns_xdv namespaces ->
  (compiler.xpath_namespace_uri (ns_old namespaces) rules = [] ->
   compiler.update_namespace namespaces rules l = (Ok rules, l))
  /\ (compiler.xpath_namespace_uri (ns_old namespaces) rules <> [] ->
      let doc := compiler.update_transform namespaces rules in
      compiler.update_namespace namespaces rules l
      = (Ok doc, (l ++ [(WARNING, compiler.deprecation_warning namespaces)])%list)
      /\ compiler.xpath_namespace_uri (ns_old namespaces) doc = []
      /\ compiler.equivalent namespaces rules doc).
Proof.
  intros Hne. unfold compiler.update_namespace. split.
  - intros ->. reflexivity.
  - intros Hold. split; [|split].
    + destruct (compiler.xpath_namespace_uri (ns_old namespaces) rules);
        [congruence|reflexivity].
    + now apply update_transform_no_old.
    + apply update_transform_equivalent.
Qed.

Lemma update_namespace_migrates_witness :
  ns_old example.namespaces <> ns_xdv example.namespaces
  /\ compiler.update_namespace example.namespaces example.xdv_rules []
     = (Ok example.xdv_rules, [])
  /\ compiler.update_namespace example.namespaces example.old_rules []
     = (Ok example.xdv_rules,
        [(WARNING, compiler.deprecation_warning example.namespaces)]).
Proof.
  assert (Hne : ns_old example.namespaces <> ns_xdv example.namespaces)
    by discriminate.
  split; [exact Hne|].
  destruct (update_namespace_migrates example.namespaces example.xdv_rules [] Hne)
    as [Hsame _].
  destruct (update_namespace_migrates example.namespaces example.old_rules [] Hne)
    as [_ Hnew].
  split.
  - apply Hsame. reflexivity.
  - destruct Hnew as [H _]; [discriminate|]. exact H.
Defined.

(** *** Resolvers *)

(** C4.  The resolver made from the rules bytes and the optional extra
    bytes answers the rules slot with the rules bytes, the extra slot
    with the extra bytes when there are some, and declines (gives
    [None]) the extra slot when there are none and every other url. *)
Theorem CompileResolver_resolve (rules : string) (extra : option string)
  (url : string) :
  let self := compiler.CompileResolver.__init__ rules extra in
  compiler.CompileResolver.resolve self "__xdv__rules" = Some (resolve_string rules)
  /\ compiler.CompileResolver.resolve self "__xdv__extra"
     = match extra with
       | Some e => Some (resolve_string e)
       | None => None
       end
  /\ compiler.CompileResolver.resolve self url
     = if String.eqb url "__xdv__rules" then Some (resolve_string rules)
       else if String.eqb url "__xdv__extra" then option_map resolve_string extra
       else None.
Proof.
  intros self. unfold compiler.CompileResolver.resolve, self. cbn.
  split; [reflexivity|]. split.
  - destruct extra; reflexivity.
  - destruct (String.eqb url "__xdv__rules"); [reflexivity|].
    destruct extra; [|now destruct (String.eqb url "__xdv__extra")].
    destruct (String.eqb url "__xdv__extra"); reflexivity.
Qed.

(** C7.  A url that holds [://] or begins with a slash is resolved as
    it is; any other url is resolved as [os.path.join] of the directory
    and the url, which on a POSIX host is the directory, a slash unless
    the directory is empty or ends with one, and the url. *)
Theorem RunResolver_resolve (os_path : OsPath) (directory url : string) :
  let self := {| run.RunResolver.directory := directory |} in
  run.RunResolver.resolve os_path self url
  = Some (resolve_filename
            (if Py.contains "://" url || Py.startswith "/" url then url
             else os_path_join os_path directory url))
  /\ (Py.startswith "/" url = false ->
      os_path_join posixpath.os_path directory url
      = if String.eqb directory "" || Py.endswith "/" directory
        then directory ++ url
        else directory ++ "/" ++ url).
Proof.
  intros self. split.
  - unfold run.RunResolver.resolve.
    destruct (Py.contains "://" url || Py.startswith "/" url); reflexivity.
  - intros H. cbn. unfold posixpath.join. now rewrite H.
Qed.

(** *** The monad of the drivers *)

Lemma bindM_ok {A B : Type} (m : M A) (k : A -> M B) (l l' : log) (b : B) :
  bindM m k l = (Ok b, l') ->
  exists a l1, m l = (Ok a, l1) /\ k a l1 = (Ok b, l').
Proof.
  unfold bindM. destruct (m l) as [[a|e] l1]; [|discriminate].
  intros H. now exists a, l1.
Qed.

Lemma bindM_step {A B : Type} (m : M A) (k : A -> M B) (l l1 : log) (a : A) :
  m l = (Ok a, l1) -> bindM m k l = k a l1.
Proof. unfold bindM. now intros ->. Qed.


Lemma writes_ret {A : Type} (a : A) : writes (ret a).
Proof. exists (Ok a), []. intros l. unfold ret. now rewrite app_nil_r. Qed.

Lemma writes_raise {A : Type} (e : exn) : writes (@raise A e).
Proof. exists (Raise e), []. intros l. unfold raise. now rewrite app_nil_r. Qed.

Lemma writes_lift {A : Type} (r : result A) : writes (lift r).
Proof. exists r, []. intros l. unfold lift. now rewrite app_nil_r. Qed.

Lemma writes_logger_log (lvl : level) (msg : string) : writes (logger_log lvl msg).
Proof. exists (Ok tt), [(lvl, msg)]. reflexivity. Qed.

Lemma writes_bindM {A B : Type} (m : M A) (k : A -> M B) :
  writes m -> (forall a, writes (k a)) -> writes (bindM m k).
Proof.
  intros (r & out & Hm) Hk. destruct r as [a|e].
  - destruct (Hk a) as (r' & out' & Hka).
    exists r', (out ++ out')%list. intros l. unfold bindM.
    now rewrite Hm, Hka, app_assoc.
  - exists (Raise e), out. intros l. unfold bindM. now rewrite Hm.
Qed.


Create HintDb writes.
#[export] Hint Resolve writes_ret writes_raise writes_lift writes_logger_log : writes.

Ltac writes_step :=
  match goal with
  | |- writes (bindM _ _) => apply writes_bindM; [|intros]
  | |- writes (match ?x with _ => _ end) => destruct x
  | |- writes (logger_warning _) => apply writes_logger_log
  | |- writes _ => solve [auto with writes]
  end.

Lemma writes_update_namespace (namespaces : Namespaces) (rules : node) :
  writes (compiler.update_namespace namespaces rules).
Proof. unfold compiler.update_namespace. repeat writes_step. Qed.

Lemma writes_when (b : bool) (f : node -> M node) (d : node) :
  (forall x, writes (f x)) -> writes (compiler.when b f d).
Proof. intros H. unfold compiler.when. destruct b; auto with writes. Qed.

Lemma writes_log_each (lvl : level) (msgs : list string) :
  writes (compiler.log_each lvl msgs).
Proof.
  induction msgs as [|msg rest IH]; cbn [compiler.log_each]; [auto with writes|].
  apply writes_bindM; [apply writes_logger_log|intros; exact IH].
Qed.

Lemma writes_prepare (env : Env) (os_path : OsPath) (namespaces : Namespaces)
  (a : compiler.Args.t) :
  writes (compiler.prepare env os_path namespaces a).
Proof.
  unfold compiler.prepare.
  repeat first
    [ apply writes_when; intros
    | apply writes_update_namespace
    | writes_step ].
Qed.

Lemma writes_compile_theme (env : Env) (os_path : OsPath) (namespaces : Namespaces)
  (a : compiler.Args.t) :
  writes (compiler.compile_theme env os_path namespaces a).
Proof.
  unfold compiler.compile_theme.
  apply writes_bindM; [apply writes_prepare|intros p].
  apply writes_bindM; [apply writes_lift|intros out].
  apply writes_bindM; [apply writes_log_each|intros _]. apply writes_ret.
Qed.

(** *** Rule compiler *)

Ltac bind_inv H :=
  let a := fresh "v" in
  let l := fresh "l" in
  let E := fresh "E" in
  apply bindM_ok in H; destruct H as (a & l & E & H).






(** *** Determinism and the resolvers of the compiler parser *)






(** The body on two sources is the body of [compile_theme] when they
    are the two file names. *)
Lemma compile_theme_from_names (env : Env) (os_path : OsPath)
  (namespaces : Namespaces) (a : compiler.Args.t) :
  compiler.compile_theme_from env os_path namespaces
    (Filename (compiler.Args.rules a)) (Filename (compiler.Args.theme a)) a
  = compiler.compile_theme env os_path namespaces a.
Proof. reflexivity. Qed.

(** A theme bound to [None] is found out when it is parsed, after the
    rules were read and the warning logged. *)
Example call_compile_theme_theme_none :
  compiler.call_compile_theme example.env posixpath.os_path example.namespaces
    [("rules", compiler.PyStr "rules.xml"); ("theme", compiler.PyNone)] []
  = (Raise (TypeError "cannot parse from 'NoneType'"),
     [(WARNING, compiler.deprecation_warning example.namespaces)]).
Proof. vm_compute. reflexivity. Qed.

(** *** Transform runner *)

Lemma unexpected_read_network (options : run.Options.t) (parser : Parser) :
  compiler.unexpected_keyword compiler.compile_theme_params
    (run.compile_theme_kwargs options parser)
  = Some "read_network".
Proof. reflexivity. Qed.

(** C5 fails on the code.  Whenever [main] is given a rules document
    and no transform, so that it calls [compile_theme], the call raises
    [TypeError]: it passes the keyword [read_network], which is no
    parameter of [compile_theme].  Nothing is compiled, no transform is
    applied and nothing is written. *)
Theorem run_main_compile_raises (env : Env) (os_path : OsPath)
  (namespaces : Namespaces) (options o : run.Options.t) (args : list string)
  (content : string) (l l1 : log) :
  run.arguments options args l = (Ok (o, content), l1) ->
  run.Options.xsl o = None ->
  run.Options.rules o <> None ->
  run.main env os_path namespaces options args l
  = (Raise (TypeError
              "compile_theme() got an unexpected keyword argument 'read_network'"),
     l1).
Proof.
  intros Hargs Hxsl Hrules. unfold run.main.
  rewrite (bindM_step _ _ _ _ _ Hargs). cbn [fst snd].
  destruct (run.Options.rules o) as [r|] eqn:Er; [|congruence].
  rewrite Hxsl. unfold bindM at 1. cbn [ret].
  unfold bindM at 1. unfold bindM at 1.
  unfold compiler.call_compile_theme. rewrite unexpected_read_network.
  reflexivity.
Qed.

Lemma run_main_compile_raises_witness :
  run.arguments example.options ["content.html"] []
  = (Ok (example.options, "content.html"), [])
  /\ run.Options.xsl example.options = None
  /\ run.Options.rules example.options <> None
  /\ run.main example.env posixpath.os_path example.namespaces example.options
       ["content.html"] []
     = (Raise (TypeError
                 "compile_theme() got an unexpected keyword argument 'read_network'"),
        []).
Proof.
  split; [reflexivity|]. split; [reflexivity|]. split; [discriminate|].
  apply (run_main_compile_raises example.env posixpath.os_path example.namespaces
           example.options example.options ["content.html"] "content.html" [] []);
    [reflexivity|reflexivity|discriminate].
Defined.

(** *** Theme URL rewriter: [apply_absolute_prefix] *)

Lemma visit_element (os_path : OsPath) (p ns tag : string)
  (attrib : list (string * string)) (text : option string) (cs : list node)
  (tail : option string) :
  compiler.visit os_path p (Element ns tag attrib text cs tail)
  = (n' <- (if compiler.selected (Element ns tag attrib text cs tail)
            then compiler.loop_body os_path p (Element ns tag attrib text cs tail)
            else Ok (Element ns tag attrib text cs tail)) ;;
     cs' <- etree.mapM (compiler.visit os_path p) cs ;;
     Ok (etree.set_children n' cs')).
Proof.
  cbn [compiler.visit].
  destruct (if compiler.selected (Element ns tag attrib text cs tail)
            then compiler.loop_body os_path p (Element ns tag attrib text cs tail)
            else Ok (Element ns tag attrib text cs tail)) as [n'|e];
    cbn [bind]; [|reflexivity].
  match goal with
  | |- bind (?f cs) _ = _ =>
      assert (E : forall l, f l = etree.mapM (compiler.visit os_path p) l)
  end.
  { induction l as [|c l IH]; [reflexivity|].
    cbn [etree.mapM]. now rewrite IH. }
  now rewrite E.
Qed.

(** C10 fails on the code.  On a theme whose head holds a style
    element without text, [apply_absolute_prefix] raises [TypeError]
    whatever the prefix: the text [None] is handed to the substitution. *)
Theorem apply_absolute_prefix_empty_style_raises (os_path : OsPath)
  (absolute_prefix : string) :
  compiler.apply_absolute_prefix os_path (example.page [example.empty_style])
    absolute_prefix
  = Raise (TypeError "expected string or buffer").
Proof. reflexivity. Qed.

(** C8 fails on the code.  On a style element whose text has an import
    and a rule on one line, [apply_absolute_prefix] also rewrites the
    text after the import: the second group of the pattern runs to the
    last closing parenthesis of the line, and the url of the rule loses
    a slash. *)
Theorem apply_absolute_prefix_rewrites_after_import :
  compiler.apply_absolute_prefix posixpath.os_path
    (example.page [example.style example.one_line_css]) "/static"
  = Ok (example.page
          [example.style
             ("@import url(/static/a.css);"
              ++ " body { background: url(/cdn.example.com/bg.png) }")])
  /\ example.one_line_css
     = "@import url(a.css);"
       ++ " body { background: url(//cdn.example.com/bg.png) }".
Proof. split; vm_compute; reflexivity. Qed.

(** With the import on a line of its own only the import changes. *)
Example sub_imports_own_line :
  compiler.sub_imports posixpath.os_path "/static/"
    "@IMPORT url('a.css');
body { background: url(//cdn.example.com/bg.png) }"
  = "@IMPORT url('/static/a.css');
body { background: url(//cdn.example.com/bg.png) }".
Proof. vm_compute. reflexivity. Qed.

Lemma lower_ascii_at (c : ascii) :
  Ascii.eqb (Py.lower_ascii c) (Py.lower_ascii "@") = Ascii.eqb c "@".
Proof.
  destruct c as [[] [] [] [] [] [] [] []]; reflexivity.
Qed.

Lemma match_needs_at (c : ascii) (s : string) :
  Ascii.eqb c "@" = false ->
  re.match_ compiler.IMPORT_STYLESHEET (String c s) = None.
Proof.
  intros H. unfold re.match_, compiler.IMPORT_STYLESHEET.
  cbn [re.run re.lit_i]. now rewrite lower_ascii_at, H.
Qed.

(** A text without the character [@] has no import: the substitution
    gives it back. *)
Lemma sub_imports_no_at (os_path : OsPath) (p text : string) :
  Py.has_char "@" text = false ->
  compiler.sub_imports os_path p text = text.
Proof.
  unfold compiler.sub_imports, re.sub.
  induction text as [|c s IH]; [reflexivity|].
  cbn [Py.has_char]. intros H. apply orb_false_iff in H. destruct H as [Hc Hs].
  cbn [re.sub_from]. rewrite (match_needs_at c s Hc). now rewrite IH.
Qed.

Lemma get_set_other (k key v : string) (attrib : list (string * string)) :
  k <> key -> etree.get k (etree.set key v attrib) = etree.get k attrib.
Proof.
  intros Hk. induction attrib as [|[a w] rest IH]; simpl.
  - destruct (String.eqb key k) eqn:E; [|reflexivity].
    apply String.eqb_eq in E. congruence.
  - destruct (String.eqb a key) eqn:E; simpl.
    + apply String.eqb_eq in E. subst a.
      destruct (String.eqb key k) eqn:E'; [|reflexivity].
      apply String.eqb_eq in E'. congruence.
    + now rewrite IH.
Qed.

Lemma rewrite_attrib_other (os_path : OsPath) (p k key : string)
  (attrib : list (string * string)) :
  k <> key ->
  etree.get k (compiler.rewrite_attrib os_path p key attrib) = etree.get k attrib.
Proof.
  intros Hk. unfold compiler.rewrite_attrib.
  destruct (etree.get key attrib) as [v|]; [|reflexivity].
  destruct (String.eqb v ""); [reflexivity|]. now apply get_set_other.
Qed.

(** What the loop body leaves alone: the name, the children and the
    tail of every node, the attributes other than [src] and [href], the
    text of every element but [style], and the comments that do not
    start with [[if IE]. *)
Lemma loop_body_frame (os_path : OsPath) (p : string) (n n' : node) :
  compiler.loop_body os_path p n = Ok n' ->
  match n, n' with
  | Element ns tag attrib text cs tail, Element ns' tag' attrib' text' cs' tail' =>
      ns' = ns /\ tag' = tag /\ cs' = cs /\ tail' = tail
      /\ (forall k, k <> "src" -> k <> "href" ->
                    etree.get k attrib' = etree.get k attrib)
      /\ (etree.tag_of ns tag <> "style" -> text' = text)
  | Comment text tail, Comment text' tail' =>
      tail' = tail /\ (Py.startswith "[if IE" text = false -> text' = text)
  | _, _ => False
  end.
Proof.
  destruct n as [ns tag attrib text cs tail|text tail];
    cbn [compiler.loop_body]; cbv zeta.
  - destruct (String.eqb (etree.tag_of ns tag) "img"
              || String.eqb (etree.tag_of ns tag) "script"
              || String.eqb (etree.tag_of ns tag) "input").
    { intros [= <-]. repeat split; try reflexivity.
      intros k Hs _. now apply rewrite_attrib_other. }
    destruct (String.eqb (etree.tag_of ns tag) "link").
    { intros [= <-]. repeat split; try reflexivity.
      intros k _ Hh. now apply rewrite_attrib_other. }
    destruct (String.eqb (etree.tag_of ns tag) "style") eqn:E.
    { destruct text as [t|]; [|discriminate]. intros [= <-].
      apply String.eqb_eq in E. repeat split; try reflexivity. congruence. }
    intros [= <-]. repeat split; reflexivity.
  - destruct (Py.startswith "[if IE" text) eqn:E; intros [= <-].
    + split; [reflexivity|discriminate].
    + split; reflexivity.
Qed.

Lemma mapM_ok {A B : Type} (f : A -> result B) (l : list A) :
  Forall (fun a => exists b, f a = Ok b) l -> exists bs, etree.mapM f l = Ok bs.
Proof.
  induction 1 as [|a l [b Hb] _ [bs Hbs]]; cbn [etree.mapM].
  - now exists [].
  - rewrite Hb. cbn [bind]. rewrite Hbs. cbn [bind]. now exists (b :: bs).
Qed.

Lemma forallb_Forall_impl {A : Type} (f : A -> bool) (P : A -> Prop) (l : list A) :
  Forall (fun a => f a = true -> P a) l -> forallb f l = true -> Forall P l.
Proof.
  induction 1 as [|a l Ha _ IH]; cbn [forallb]; [constructor|].
  intros H. apply andb_true_iff in H. destruct H as [H1 H2].
  constructor; [now apply Ha|now apply IH].
Qed.

Lemma loop_body_ok (os_path : OsPath) (p ns tag : string)
  (attrib : list (string * string)) (text : option string) (cs : list node)
  (tail : option string) :
  (String.eqb (etree.tag_of ns tag) "style" = true -> text <> None) ->
  exists n', compiler.loop_body os_path p (Element ns tag attrib text cs tail) = Ok n'.
Proof.
  intros Hstyle. cbn [compiler.loop_body]. cbv zeta.
  destruct (String.eqb (etree.tag_of ns tag) "img"
            || String.eqb (etree.tag_of ns tag) "script"
            || String.eqb (etree.tag_of ns tag) "input");
    [eexists; reflexivity|].
  destruct (String.eqb (etree.tag_of ns tag) "link"); [eexists; reflexivity|].
  destruct (String.eqb (etree.tag_of ns tag) "style"); [|eexists; reflexivity].
  destruct text as [t|]; [eexists; reflexivity|].
  now destruct Hstyle.
Qed.

Lemma visit_ok (os_path : OsPath) (p : string) (n : node) :
  compiler.styles_have_text n = true ->
  exists n', compiler.visit os_path p n = Ok n'.
Proof.
  induction n as [ns tag attrib text cs tail IH|text tail] using node_induction.
  - intros H. cbn [compiler.styles_have_text] in H.
    apply andb_true_iff in H. destruct H as [Hs Hcs].
    rewrite visit_element.
    assert (Hn : exists n',
               (if compiler.selected (Element ns tag attrib text cs tail)
                then compiler.loop_body os_path p (Element ns tag attrib text cs tail)
                else Ok (Element ns tag attrib text cs tail)) = Ok n').
    { destruct (compiler.selected (Element ns tag attrib text cs tail)) eqn:Esel;
        [|eexists; reflexivity].
      apply loop_body_ok.
      intros Et. unfold compiler.selected, etree.name_test, etree.is_comment in Esel.
      unfold etree.name_test in Hs. unfold etree.tag_of in Et.
      destruct (String.eqb ns ""); [|discriminate].
      rewrite Et in Hs. cbn in Hs. destruct text; discriminate. }
    destruct Hn as [n' ->]. cbn [bind].
    destruct (mapM_ok (compiler.visit os_path p) cs) as [cs' ->].
    { now apply (forallb_Forall_impl compiler.styles_have_text). }
    cbn [bind]. eexists; reflexivity.
  - intros _. cbn [compiler.visit compiler.loop_body].
    destruct (Py.startswith "[if IE" text); eexists; reflexivity.
Qed.

(** The empty style element is the only obstacle in the loop itself:
    on a theme in which every style element has a text,
    [apply_absolute_prefix] returns, the strings being such that lxml
    takes them. *)
Lemma apply_absolute_prefix_ok (os_path : OsPath) (theme_doc : node)
  (absolute_prefix : string) :
  compiler.styles_have_text theme_doc = true ->
  exists doc, compiler.apply_absolute_prefix os_path theme_doc absolute_prefix = Ok doc.
Proof.
  destruct theme_doc as [ns tag attrib text cs tail|text tail];
    [|intros _; eexists; reflexivity].
  intros H. cbn [compiler.styles_have_text] in H.
  apply andb_true_iff in H. destruct H as [_ Hcs].
  unfold compiler.apply_absolute_prefix.
  destruct (mapM_ok (compiler.visit_below os_path
                       (compiler.strip_slash absolute_prefix)) cs) as [cs' ->];
    [|cbn [bind]; eexists; reflexivity].
  rewrite forallb_forall in Hcs. apply Forall_forall. intros c Hc.
  specialize (Hcs c Hc). destruct c as [ns1 tag1 attrib1 text1 cs1 tail1|t1 tail1];
    [|eexists; reflexivity].
  cbn [compiler.styles_have_text] in Hcs.
  apply andb_true_iff in Hcs. destruct Hcs as [_ Hcs1].
  cbn [compiler.visit_below].
  destruct (mapM_ok (compiler.visit os_path (compiler.strip_slash absolute_prefix)) cs1)
    as [cs1' ->]; [|cbn [bind]; eexists; reflexivity].
  rewrite forallb_forall in Hcs1. apply Forall_forall. intros c Hc1.
  apply visit_ok. now apply Hcs1.
Qed.

(* ================================================================= *)
(** ** Further properties of the rewriter *)

Lemma prefix_split (a s : string) :
  String.prefix a s = true -> exists rest, s = a ++ rest.
Proof.
  revert s. induction a as [|c a IH]; intros s H.
  - now exists s.
  - destruct s as [|d s]; [discriminate|]. simpl in H.
    destruct (ascii_dec c d) as [->|]; [|discriminate].
    destruct (IH s H) as [rest ->]. now exists rest.
Qed.

Lemma string_app_assoc (a b c : string) : (a ++ b) ++ c = a ++ (b ++ c).
Proof. induction a as [|x a IH]; [reflexivity|]. simpl. now rewrite IH. Qed.

Lemma prefix_nil (s : string) : String.prefix "" s = true.
Proof. now destruct s. Qed.

Lemma prefix_self_app (a x : string) : String.prefix a (a ++ x) = true.
Proof.
  induction a as [|c a IH]; [apply prefix_nil|].
  simpl. destruct (ascii_dec c c); [exact IH|congruence].
Qed.

Lemma prefix_app (a s x : string) :
  String.prefix a s = true -> String.prefix a (s ++ x) = true.
Proof.
  intros H. destruct (prefix_split a s H) as [rest ->].
  rewrite string_app_assoc. apply prefix_self_app.
Qed.

Lemma contains_app (sub s x : string) :
  Py.contains sub s = true -> Py.contains sub (s ++ x) = true.
Proof.
  induction s as [|c s IH].
  - cbn [Py.contains]. rewrite orb_false_r. intros H.
    assert (E : Py.contains sub ("" ++ x) = String.prefix sub ("" ++ x)
                                            || Py.contains sub ("" ++ x))
      by (destruct (String.prefix sub ("" ++ x)) eqn:E;
          [destruct x; cbn [append Py.contains] in *; now rewrite E|reflexivity]).
    rewrite E, (prefix_app _ _ _ H). reflexivity.
  - change (String c s ++ x) with (String c (s ++ x)).
    cbn [Py.contains]. intros H. apply orb_true_iff in H. destruct H as [H|H].
    + change (String c (s ++ x)) with (String c s ++ x).
      now rewrite (prefix_app _ _ _ H).
    + rewrite (IH H). apply orb_true_r.
Qed.

(** The text up to the first [@] is copied by the substitution. *)
Lemma sub_imports_app (os_path : OsPath) (p a b : string) :
  Py.has_char "@" a = false ->
  compiler.sub_imports os_path p (a ++ b) = a ++ compiler.sub_imports os_path p b.
Proof.
  unfold compiler.sub_imports, re.sub.
  induction a as [|c a IH]; [reflexivity|].
  cbn [Py.has_char]. intros H. apply orb_false_iff in H. destruct H as [Hc Ha].
  change (String c a ++ b) with (String c (a ++ b)).
  cbn [re.sub_from]. rewrite (match_needs_at c (a ++ b) Hc). now rewrite IH.
Qed.

Lemma without_set (key v : string) (attrib : list (string * string)) :
  etree.get key attrib <> None ->
  frame.without key (etree.set key v attrib) = frame.without key attrib.
Proof.
  unfold frame.without.
  induction attrib as [|[k w] rest IH]; simpl; [congruence|].
  destruct (String.eqb k key) eqn:E; simpl; rewrite E; simpl; [reflexivity|].
  intros H. now rewrite IH.
Qed.

Lemma without_rewrite_attrib (os_path : OsPath) (p key : string)
  (attrib : list (string * string)) :
  frame.without key (compiler.rewrite_attrib os_path p key attrib)
  = frame.without key attrib.
Proof.
  unfold compiler.rewrite_attrib.
  destruct (etree.get key attrib) as [v|] eqn:E; [|reflexivity].
  destruct (String.eqb v ""); [reflexivity|].
  apply without_set. congruence.
Qed.

Lemma mask_set_children (n : node) (cs : list node) :
  map frame.mask cs = map frame.mask (etree.children_of n) ->
  frame.mask (etree.set_children n cs) = frame.mask n.
Proof.
  destruct n as [ns tag attrib text children tail|text tail]; [|reflexivity].
  cbn [etree.set_children etree.children_of frame.mask etree.name_test].
  now intros ->.
Qed.

Lemma mask_comment (os_path : OsPath) (p text : string) (tail : option string) :
  Py.startswith "[if IE" text = true ->
  frame.mask (Comment (compiler.sub_imports os_path p text) tail)
  = frame.mask (Comment text tail).
Proof.
  intros H. cbn [frame.mask]. rewrite H.
  destruct (prefix_split _ _ H) as [rest ->].
  rewrite sub_imports_app by reflexivity.
  unfold Py.startswith. now rewrite prefix_self_app.
Qed.

Lemma selected_element (ns tag : string) (attrib : list (string * string))
  (text : option string) (cs : list node) (tail : option string) :
  compiler.selected (Element ns tag attrib text cs tail) = true -> ns = "".
Proof.
  unfold compiler.selected, etree.name_test, etree.is_comment.
  destruct (String.eqb ns "") eqn:E; [intros _; now apply String.eqb_eq|].
  discriminate.
Qed.

Lemma loop_body_mask (os_path : OsPath) (p : string) (n n1 : node) :
  compiler.selected n = true ->
  compiler.loop_body os_path p n = Ok n1 ->
  etree.children_of n1 = etree.children_of n
  /\ forall cs, frame.mask (etree.set_children n1 cs)
                = frame.mask (etree.set_children n cs).
Proof.
  destruct n as [ns tag attrib text children tail|text tail].
  - intros Hsel. apply selected_element in Hsel as ->.
    cbn [compiler.loop_body]. cbv zeta. unfold etree.tag_of.
    cbn [String.eqb].
    destruct (String.eqb tag "img" || String.eqb tag "script" || String.eqb tag "input")
      eqn:E1.
    { intros [= <-]. split; [reflexivity|]. intros cs.
      cbn [etree.set_children frame.mask etree.name_test String.eqb andb].
      rewrite E1. now rewrite without_rewrite_attrib. }
    destruct (String.eqb tag "link") eqn:E2.
    { intros [= <-]. split; [reflexivity|]. intros cs.
      cbn [etree.set_children frame.mask etree.name_test String.eqb andb].
      rewrite E1, E2. now rewrite without_rewrite_attrib. }
    destruct (String.eqb tag "style") eqn:E3.
    { destruct text as [t|]; [|discriminate]. intros [= <-].
      split; [reflexivity|]. intros cs.
      cbn [etree.set_children frame.mask etree.name_test String.eqb andb].
      now rewrite E1, E2, E3. }
    intros [= <-]. split; reflexivity.
  - intros _. cbn [compiler.loop_body].
    destruct (Py.startswith "[if IE" text) eqn:E; intros [= <-];
      (split; [reflexivity|]); intros cs; cbn [etree.set_children];
      [now apply mask_comment|reflexivity].
Qed.

Lemma mapM_Forall2 {A B : Type} (f : A -> result B) (l : list A) (l' : list B) :
  etree.mapM f l = Ok l' -> Forall2 (fun a b => f a = Ok b) l l'.
Proof.
  revert l'. induction l as [|a l IH]; cbn [etree.mapM]; intros l'.
  - intros [= <-]. constructor.
  - destruct (f a) as [b|e] eqn:Ea; cbn [bind]; [|discriminate].
    destruct (etree.mapM f l) as [bs|e]; cbn [bind]; [|discriminate].
    intros [= <-]. constructor; [exact Ea|now apply IH].
Qed.

Lemma mapM_mask (f : node -> result node) (l l' : list node) :
  Forall (fun c => forall c', f c = Ok c' -> frame.mask c' = frame.mask c) l ->
  etree.mapM f l = Ok l' ->
  map frame.mask l' = map frame.mask l.
Proof.
  intros HF H. apply mapM_Forall2 in H.
  induction H as [|c c' l l' Hc _ IH]; [reflexivity|].
  inversion HF as [|? ? Hc0 HF0]; subst. cbn [map].
  now rewrite (Hc0 c' Hc), (IH HF0).
Qed.

Lemma visit_mask (os_path : OsPath) (p : string) (n n' : node) :
  compiler.visit os_path p n = Ok n' -> frame.mask n' = frame.mask n.
Proof.
  revert n'.
  induction n as [ns tag attrib text cs tail IH|text tail] using node_induction;
    intros n'.
  - rewrite visit_element.
    set (n := Element ns tag attrib text cs tail).
    destruct (compiler.selected n) eqn:Esel.
    + destruct (compiler.loop_body os_path p n) as [n1|e] eqn:E1;
        cbn [bind]; [|discriminate].
      destruct (etree.mapM (compiler.visit os_path p) cs) as [cs'|e] eqn:E2;
        cbn [bind]; [|discriminate].
      intros [= <-].
      destruct (loop_body_mask _ _ _ _ Esel E1) as [_ Hm]. rewrite Hm.
      apply mask_set_children. now apply (mapM_mask _ _ _ IH).
    + cbn [bind].
      destruct (etree.mapM (compiler.visit os_path p) cs) as [cs'|e] eqn:E2;
        cbn [bind]; [|discriminate].
      intros [= <-].
      apply (mask_set_children n cs'). now apply (mapM_mask _ _ _ IH).
  - cbn [compiler.visit compiler.loop_body].
    destruct (Py.startswith "[if IE" text) eqn:E; intros [= <-];
      [now apply mask_comment|reflexivity].
Qed.

Lemma visit_below_mask (os_path : OsPath) (p : string) (n n' : node) :
  compiler.visit_below os_path p n = Ok n' -> frame.mask n' = frame.mask n.
Proof.
  destruct n as [ns tag attrib text cs tail|text tail];
    cbn [compiler.visit_below]; [|now intros [= <-]].
  destruct (etree.mapM (compiler.visit os_path p) cs) as [cs'|e] eqn:E;
    cbn [bind]; [|discriminate].
  intros [= <-]. apply (mask_set_children (Element ns tag attrib text cs tail) cs').
  refine (mapM_mask _ cs cs' _ E).
  apply Forall_forall. intros c _ c'. apply visit_mask.
Qed.

(** X1.  Whatever [apply_absolute_prefix] returns differs from the
    theme it was given only in what the mask blanks out: the [src] of
    [img], [script] and [input] elements, the [href] of [link]
    elements, the text of [style] elements and the text of comments
    that start with [[if IE].  Names, namespaces, every other
    attribute, every other text, the tails and the shape of the tree
    are the same. *)
Theorem apply_absolute_prefix_frame (os_path : OsPath) (theme_doc doc : node)
  (absolute_prefix : string) :
  compiler.apply_absolute_prefix os_path theme_doc absolute_prefix = Ok doc ->
  frame.mask doc = frame.mask theme_doc.
Proof.
  unfold compiler.apply_absolute_prefix.
  destruct theme_doc as [ns tag attrib text cs tail|text tail];
    [|now intros [= <-]].
  destruct (etree.mapM _ cs) as [cs'|e] eqn:E; cbn [bind]; [|discriminate].
  intros [= <-]. apply (mask_set_children (Element ns tag attrib text cs tail) cs').
  refine (mapM_mask _ cs cs' _ E).
  apply Forall_forall. intros c _ c'. apply visit_below_mask.
Qed.

Lemma apply_absolute_prefix_frame_witness :
  exists doc,
    compiler.apply_absolute_prefix posixpath.os_path example.theme "/static" = Ok doc
    /\ doc <> example.theme
    /\ frame.mask doc = frame.mask example.theme.
Proof.
  eexists. split; [vm_compute; reflexivity|]. split; [discriminate|].
  apply (apply_absolute_prefix_frame posixpath.os_path example.theme _ "/static").
  vm_compute. reflexivity.
Defined.

(** X2.  The loop starts two levels below the root: the root element
    keeps its attributes and text, and each of its children comes back
    as it was but for its own children.  A [link] or [style] that is a
    child of the root element is not rewritten. *)
Theorem apply_absolute_prefix_skips_top (os_path : OsPath) (ns tag : string)
  (attrib : list (string * string)) (text : option string) (cs : list node)
  (tail : option string) (absolute_prefix : string) (doc : node) :
  compiler.apply_absolute_prefix os_path (Element ns tag attrib text cs tail)
    absolute_prefix = Ok doc ->
  exists cs', doc = Element ns tag attrib text cs' tail
              /\ Forall2 frame.same_but_children cs cs'.
Proof.
  unfold compiler.apply_absolute_prefix.
  destruct (etree.mapM _ cs) as [cs'|e] eqn:E; cbn [bind]; [|discriminate].
  intros [= <-]. exists cs'. split; [reflexivity|].
  apply mapM_Forall2 in E.
  induction E as [|c c' l l' Hc _ IH]; constructor; [|exact IH].
  unfold frame.same_but_children.
  destruct c as [ns1 tag1 attrib1 text1 cs1 tail1|text1 tail1];
    cbn [compiler.visit_below] in Hc.
  - destruct (etree.mapM _ cs1) as [cs1'|e]; cbn [bind] in Hc; [|discriminate].
    now injection Hc as <-.
  - now injection Hc as <-.
Qed.

Lemma apply_absolute_prefix_skips_top_witness :
  exists cs',
    compiler.apply_absolute_prefix posixpath.os_path example.flat_theme "/static"
    = Ok (Element "" "html" [] None cs' None)
    /\ Forall2 frame.same_but_children (etree.children_of example.flat_theme) cs'
    /\ nth_error cs' 0
       = Some (example.leaf "" "link" [("rel", "stylesheet"); ("href", "site.css")]).
Proof.
  destruct (apply_absolute_prefix_skips_top posixpath.os_path "" "html" [] None
              (etree.children_of example.flat_theme) None "/static"
              (Element "" "html" [] None
                 [example.leaf "" "link" [("rel", "stylesheet"); ("href", "site.css")];
                  Element "" "body" [] None
                    [example.leaf "" "script"
                       [("src", "/static/js/site.js"); ("type", "text/javascript")];
                     Comment "[if IE]><style>@import url(/static/ie.css);</style><![endif]"
                       None]
                    None]
                 None))
    as (cs' & Hdoc & Hcs); [vm_compute; reflexivity|].
  exists cs'. injection Hdoc as <-. split; [vm_compute; reflexivity|].
  split; [exact Hcs|reflexivity].
Defined.

(** *** The pattern on a well-formed import *)

Lemma length_app (a b : string) :
  String.length (a ++ b) = String.length a + String.length b.
Proof. induction a as [|c a IH]; [reflexivity|]. simpl. now rewrite IH. Qed.

Lemma consumed_app (a b : string) : re.consumed (a ++ b) b = a.
Proof.
  unfold re.consumed. rewrite length_app.
  replace (String.length a + String.length b - String.length b)
    with (String.length a) by lia.
  induction a as [|c a IH]; simpl; [now destruct b|now rewrite IH].
Qed.

Lemma run_lit_i {A : Type} (a s : string) (g : re.groups)
  (k : string -> re.groups -> option A) :
  re.run (re.lit_i a) (a ++ s) g k = k s g.
Proof.
  induction a as [|c a IH]; [reflexivity|].
  change (String c a ++ s) with (String c (a ++ s)).
  cbn [re.lit_i re.run]. now rewrite Ascii.eqb_refl, IH.
Qed.

Lemma star_some {A : Type} (p : ascii -> bool) (a b : string)
  (k : string -> option A) (r : A) :
  Py.all p a = true -> re.star p b k = Some r -> re.star p (a ++ b) k = Some r.
Proof.
  intros Ha Hb. induction a as [|c a IH]; [exact Hb|].
  cbn [Py.all] in Ha. apply andb_true_iff in Ha. destruct Ha as [Hc Ha].
  change (String c a ++ b) with (String c (a ++ b)).
  cbn [re.star]. now rewrite Hc, (IH Ha).
Qed.

Lemma star_none {A : Type} (p q : ascii -> bool) (t : string)
  (k : string -> option A) :
  k "" = None ->
  (forall c s, q c = true -> k (String c s) = None) ->
  Py.all q t = true ->
  re.star p t k = None.
Proof.
  intros H0 H1. induction t as [|c t IH]; intros Ht; [exact H0|].
  cbn [Py.all] in Ht. apply andb_true_iff in Ht. destruct Ht as [Hc Ht].
  cbn [re.star]. rewrite (IH Ht), (H1 c t Hc). now destruct (p c).
Qed.

Lemma sub_from_skip (r : re.regex) (repl : re.groups -> string) (a t : string) :
  re.sub_from r repl (a ++ t) (String.length a) = re.sub_from r repl t 0.
Proof.
  induction a as [|c a IH]; [reflexivity|]. exact IH.
Qed.

Lemma sub_from_match (r : re.regex) (repl : re.groups -> string) (c : ascii)
  (a t : string) (g : re.groups) :
  re.match_ r (String c a ++ t) = Some (t, g) ->
  re.sub r repl (String c a ++ t) = repl g ++ re.sub r repl t.
Proof.
  intros H. unfold re.sub.
  change (String c a ++ t) with (String c (a ++ t)) in *.
  cbn [re.sub_from]. rewrite H.
  replace (String.length (String c (a ++ t)) - String.length t)
    with (S (String.length a)) by (cbn [String.length]; rewrite length_app; lia).
  now rewrite sub_from_skip.
Qed.

Lemma plain_chars_no_at (t : string) :
  Py.all frame.plain t = true -> Py.has_char "@" t = false.
Proof.
  induction t as [|c t IH]; [reflexivity|].
  cbn [Py.all Py.has_char]. intros H. apply andb_true_iff in H.
  destruct H as [Hc Ht]. rewrite (IH Ht), orb_false_r.
  unfold frame.plain in Hc. apply andb_true_iff in Hc. destruct Hc as [_ Hc].
  now apply negb_true_iff in Hc.
Qed.

Lemma import_pattern :
  compiler.IMPORT_STYLESHEET = re.Cat frame.import_head frame.import_tail.
Proof. reflexivity. Qed.

Lemma plain_char (c : ascii) :
  frame.plain c = true -> re.quote c = false /\ re.is_char ")" c = false.
Proof.
  unfold frame.plain, re.is_char. intros H.
  apply andb_true_iff in H. destruct H as [H _].
  apply andb_true_iff in H. destruct H as [H1 H2].
  now apply negb_true_iff in H1, H2.
Qed.

(** After the first group: the second group takes the whole url, the
    third the closing parenthesis. *)
Lemma run_import_tail (c : ascii) (u t : string) (g : re.groups) :
  re.dot c = true ->
  Py.all re.dot u = true ->
  Py.all frame.plain t = true ->
  re.run frame.import_tail (String c u ++ ")" ++ t) g
    (fun rest g' => Some (rest, g'))
  = Some (t, (3, ")") :: (2, String c u) :: g).
Proof.
  intros Hdot Hu Ht. unfold frame.import_tail.
  change (String c u ++ ")" ++ t) with (String c (u ++ ")" ++ t)).
  cbn [re.run]. rewrite Hdot.
  apply star_some; [exact Hu|].
  change (")" ++ t) with (String ")" t).
  cbn [re.star]. change (re.dot ")") with true. cbv iota.
  rewrite (star_none re.dot frame.plain t).
  - change (re.quote ")") with false. change (re.is_char ")" ")") with true.
    cbv iota.
    change (String ")" t) with (")" ++ t).
    change (String c (u ++ ")" ++ t)) with (String c u ++ (")" ++ t)).
    now rewrite !consumed_app.
  - reflexivity.
  - intros c0 s0 Hc0. destruct (plain_char c0 Hc0) as [H1 H2].
    now rewrite H1, H2.
  - exact Ht.
Qed.

(** The first group on [@import url(] followed by a character that is
    no quote. *)
Lemma run_import_head {A : Type} (c : ascii) (s : string)
  (k : string -> re.groups -> option A) (r : A) :
  re.quote c = false ->
  k (String c s) [(1, "@import url(")] = Some r ->
  re.run frame.import_head ("@import url(" ++ String c s) [] k = Some r.
Proof.
  intros Hq Hk. unfold frame.import_head.
  cbn [re.run].
  change ("@import url(" ++ String c s) with ("@import" ++ (" url(" ++ String c s)) at 1.
  rewrite run_lit_i.
  change (" url(" ++ String c s) with (String " " (String "u" ("rl(" ++ String c s))).
  change (re.space " ") with true. cbv iota.
  cbn [re.star]. change (re.space "u") with false. cbv iota.
  change (String "u" ("rl(" ++ String c s)) with ("url(" ++ String c s).
  rewrite run_lit_i. rewrite Hq.
  change ("@import url(" ++ String c s) with ("@import url(" ++ (String c s)).
  rewrite consumed_app. now rewrite Hk.
Qed.

Lemma match_import_url (c : ascii) (u t : string) :
  re.dot c = true -> re.quote c = false ->
  Py.all re.dot u = true ->
  Py.all frame.plain t = true ->
  re.match_ compiler.IMPORT_STYLESHEET ("@import url(" ++ String c u ++ ")" ++ t)
  = Some (t, [(3, ")"); (2, String c u); (1, "@import url(")]).
Proof.
  intros Hdot Hq Hu Ht.
  unfold re.match_. rewrite import_pattern.
  change (re.run (re.Cat frame.import_head frame.import_tail) ?s ?g ?k)
    with (re.run frame.import_head s g (fun s' g' => re.run frame.import_tail s' g' k)).
  change ("@import url(" ++ String c u ++ ")" ++ t)
    with ("@import url(" ++ String c (u ++ ")" ++ t)).
  apply run_import_head; [exact Hq|].
  change (String c (u ++ ")" ++ t)) with (String c u ++ ")" ++ t).
  now apply run_import_tail.
Qed.

(** X3.  An import [@import url(u)] is rewritten as intended when the
    rest of the text is plain: for a url [u] that is not empty, holds
    no newline and does not begin with a quote, between a text without
    [@] and a text without quotes, closing parentheses and [@], the
    substitution puts [to_absolute u] in the place of [u] and copies
    everything else. *)
Theorem sub_imports_url (os_path : OsPath) (p before : string) (c : ascii)
  (u after : string) :
  Py.has_char "@" before = false ->
  re.dot c = true -> re.quote c = false ->
  Py.all re.dot u = true ->
  Py.all frame.plain after = true ->
  compiler.sub_imports os_path p
    (before ++ "@import url(" ++ String c u ++ ")" ++ after)
  = before ++ "@import url(" ++ compiler.to_absolute os_path (String c u) p
    ++ ")" ++ after.
Proof.
  intros Hb Hdot Hq Hu Ha.
  rewrite sub_imports_app by exact Hb. f_equal.
  assert (E : "@import url(" ++ String c u ++ ")" ++ after
              = String "@" ("import url(" ++ String c u ++ ")") ++ after)
    by (cbn [append]; now rewrite string_app_assoc).
  unfold compiler.sub_imports.
  rewrite E, (sub_from_match _ _ _ _ _
                [(3, ")"); (2, String c u); (1, "@import url(")]).
  - fold (compiler.sub_imports os_path p after).
    rewrite (sub_imports_no_at _ _ _ (plain_chars_no_at _ Ha)).
    unfold compiler.import_repl. cbn [re.group Nat.eqb].
    now rewrite !string_app_assoc.
  - rewrite <- E. now apply match_import_url.
Qed.

Lemma sub_imports_url_witness :
  Py.has_char "@" "/* theme */ " = false
  /\ re.dot "c" = true /\ re.quote "c" = false
  /\ Py.all re.dot "ss/./site.css" = true
  /\ Py.all frame.plain "; body { margin: 0 }" = true
  /\ compiler.sub_imports posixpath.os_path "/static"
       "/* theme */ @import url(css/./site.css); body { margin: 0 }"
     = "/* theme */ @import url(/static/css/site.css); body { margin: 0 }".
Proof.
  repeat (split; [reflexivity|]).
  exact (sub_imports_url posixpath.os_path "/static" "/* theme */ " "c"
           "ss/./site.css" "; body { margin: 0 }"
           eq_refl eq_refl eq_refl eq_refl eq_refl).
Defined.

(** X4.  A text is copied up to its first [@]: the substitution of a
    text [a ++ b] in which [a] holds no [@] is [a] followed by the
    substitution of [b], and a text without any [@] comes back as it
    is. *)
Theorem sub_imports_before_at (os_path : OsPath) (p a b : string) :
  Py.has_char "@" a = false ->
  compiler.sub_imports os_path p (a ++ b) = a ++ compiler.sub_imports os_path p b
  /\ compiler.sub_imports os_path p a = a.
Proof.
  intros H. split; [now apply sub_imports_app|now apply sub_imports_no_at].
Qed.

Lemma sub_imports_before_at_witness :
  Py.has_char "@" "body { margin: 0 } " = false
  /\ compiler.sub_imports posixpath.os_path "/static"
       ("body { margin: 0 } " ++ "@import 'a.css';")
     = "body { margin: 0 } "
       ++ compiler.sub_imports posixpath.os_path "/static" "@import 'a.css';".
Proof.
  split; [reflexivity|].
  exact (proj1 (sub_imports_before_at posixpath.os_path "/static"
                  "body { margin: 0 } " "@import 'a.css';" eq_refl)).
Defined.

(** *** [to_absolute] and the attributes *)

Lemma startswith_slash (s : string) : Py.startswith "/" (String "/" s) = true.
Proof.
  unfold Py.startswith. cbn [String.prefix].
  destruct (ascii_dec "/" "/"); [apply prefix_nil|congruence].
Qed.

Lemma normpath_absolute (path : string) :
  Py.startswith "/" path = true ->
  Py.startswith "/" (posixpath.normpath path) = true.
Proof.
  intros H. unfold posixpath.normpath, posixpath.initial_slashes. rewrite H.
  destruct path as [|c path]; [discriminate|]. cbn [String.eqb].
  set (J := Py.join "/" (posixpath.new_comps (String c path))).
  destruct (Py.startswith "//" (String c path)
            && negb (Py.startswith "///" (String c path)));
    cbn [posixpath.slashes append String.eqb]; apply startswith_slash.
Qed.

(** X5.  On a POSIX host, under a prefix that begins with a slash,
    every value of [to_absolute] begins with a slash or holds [://]:
    it is a reference that [to_absolute] returns unchanged, so
    rewriting a second time under the same prefix changes nothing. *)
Theorem to_absolute_idempotent (r p : string) :
  Py.startswith "/" p = true ->
  let a := compiler.to_absolute posixpath.os_path r p in
  (Py.startswith "/" a || Py.contains "://" a) = true
  /\ compiler.to_absolute posixpath.os_path a p = a.
Proof.
  intros Hp a.
  assert (Ha : (Py.startswith "/" a || Py.contains "://" a) = true).
  { unfold a, compiler.to_absolute, compiler.joined.
    destruct (Py.startswith "/" r || Py.contains "://" r) eqn:Er; [exact Er|].
    destruct (Py.contains "://" (p ++ "/" ++ r)) eqn:En; [now rewrite En, orb_true_r|].
    cbn. rewrite normpath_absolute; [reflexivity|].
    unfold Py.startswith in *. now apply prefix_app. }
  split; [exact Ha|].
  unfold compiler.to_absolute at 1. now rewrite Ha.
Qed.

Lemma to_absolute_idempotent_witness :
  Py.startswith "/" "/static" = true
  /\ compiler.to_absolute posixpath.os_path "../img/./logo.png" "/static"
     = "/img/logo.png"
  /\ compiler.to_absolute posixpath.os_path "/img/logo.png" "/static"
     = "/img/logo.png".
Proof.
  split; [reflexivity|]. split; [reflexivity|].
  exact (proj2 (to_absolute_idempotent "../img/./logo.png" "/static" eq_refl)).
Defined.

(** X6.  Under a prefix that holds [://], a relative reference is only
    appended after a slash: the value is [p/r] as it stands, on any
    host, with its [.] and [..] segments and doubled slashes kept. *)
Theorem to_absolute_network_prefix (os_path : OsPath) (r p : string) :
  Py.contains "://" p = true ->
  Py.startswith "/" r = false ->
  Py.contains "://" r = false ->
  compiler.to_absolute os_path r p = p ++ "/" ++ r.
Proof.
  intros Hp Hs Hn. unfold compiler.to_absolute, compiler.joined.
  rewrite Hs, Hn. cbn [orb]. now rewrite (contains_app _ _ _ Hp).
Qed.

Lemma to_absolute_network_prefix_witness :
  Py.contains "://" "http://cdn.example.org/theme" = true
  /\ Py.startswith "/" "../img//logo.png" = false
  /\ Py.contains "://" "../img//logo.png" = false
  /\ compiler.to_absolute posixpath.os_path "../img//logo.png"
       "http://cdn.example.org/theme"
     = "http://cdn.example.org/theme/../img//logo.png".
Proof.
  repeat (split; [reflexivity|]).
  exact (to_absolute_network_prefix posixpath.os_path "../img//logo.png"
           "http://cdn.example.org/theme" eq_refl eq_refl eq_refl).
Defined.

Lemma get_set (key v : string) (attrib : list (string * string)) :
  etree.get key (etree.set key v attrib) = Some v.
Proof.
  induction attrib as [|[k w] rest IH]; simpl.
  - now rewrite String.eqb_refl.
  - destruct (String.eqb k key) eqn:E; simpl; now rewrite E.
Qed.

Lemma keys_set (key v : string) (attrib : list (string * string)) :
  etree.get key attrib <> None ->
  map fst (etree.set key v attrib) = map fst attrib.
Proof.
  induction attrib as [|[k w] rest IH]; simpl; [congruence|].
  destruct (String.eqb k key) eqn:E; simpl; [reflexivity|].
  intros H. now rewrite IH.
Qed.

(** X7.  Rewriting an attribute never adds, drops or reorders
    attributes.  A missing attribute stays missing, an empty one stays
    empty, any other value becomes its [to_absolute], and the other
    attributes keep their values. *)
Theorem rewrite_attrib_value (os_path : OsPath) (p key : string)
  (attrib : list (string * string)) :
  map fst (compiler.rewrite_attrib os_path p key attrib) = map fst attrib
  /\ etree.get key (compiler.rewrite_attrib os_path p key attrib)
     = match etree.get key attrib with
       | Some v =>
           Some (if String.eqb v "" then "" else compiler.to_absolute os_path v p)
       | None => None
       end
  /\ forall k, k <> key ->
       etree.get k (compiler.rewrite_attrib os_path p key attrib)
       = etree.get k attrib.
Proof.
  split; [|split].
  - unfold compiler.rewrite_attrib.
    destruct (etree.get key attrib) as [v|] eqn:E; [|reflexivity].
    destruct (String.eqb v ""); [reflexivity|]. apply keys_set. congruence.
  - unfold compiler.rewrite_attrib.
    destruct (etree.get key attrib) as [v|] eqn:E; [|exact E].
    destruct (String.eqb v "") eqn:Ev; [|apply get_set].
    apply String.eqb_eq in Ev. now subst v.
  - intros k Hk. now apply rewrite_attrib_other.
Qed.

(** X8.  One trailing slash on the prefix makes no difference: for a
    prefix that does not end with a slash, [apply_absolute_prefix]
    gives the same outcome with the prefix and with the prefix followed
    by a slash. *)
Theorem apply_absolute_prefix_trailing_slash (os_path : OsPath) (theme_doc : node)
  (absolute_prefix : string) :
  Py.endswith "/" absolute_prefix = false ->
  compiler.apply_absolute_prefix os_path theme_doc (absolute_prefix ++ "/")
  = compiler.apply_absolute_prefix os_path theme_doc absolute_prefix.
Proof.
  intros H. unfold compiler.apply_absolute_prefix.
  rewrite strip_slash_app_slash. unfold compiler.strip_slash. now rewrite H.
Qed.

Lemma apply_absolute_prefix_trailing_slash_witness :
  Py.endswith "/" "/static" = false
  /\ compiler.apply_absolute_prefix posixpath.os_path example.theme "/static/"
     = compiler.apply_absolute_prefix posixpath.os_path example.theme "/static".
Proof.
  split; [reflexivity|].
  exact (apply_absolute_prefix_trailing_slash posixpath.os_path example.theme
           "/static" eq_refl).
Defined.

(* ================================================================= *)
(** ** Further properties of the rule compiler *)













(** X10.  The theme that [compile_theme] hands to the compiler
    transform is the theme as parsed when there is no absolute prefix
    ([None] or the empty string), and otherwise what
    [apply_absolute_prefix] returned for it. *)
Theorem prepare_theme (env : Env) (os_path : OsPath) (namespaces : Namespaces)
  (a : compiler.Args.t) (l l' : log) (p : compiler.Prepared) :
  compiler.prepare env os_path namespaces a l = (Ok p, l') ->
  exists d,
    etree_parse env
      match compiler.Args.parser a with
      | Some q => q
      | None => HTMLParser
      end
      (Filename (compiler.Args.theme a)) = Ok d
    /\ match compiler.Args.absolute_prefix a with
       | Some pre =>
           if String.eqb pre "" then compiler.theme_doc p = d
           else compiler.apply_absolute_prefix os_path d pre
                = Ok (compiler.theme_doc p)
       | None => compiler.theme_doc p = d
       end.
Proof.
  unfold compiler.prepare. intros H.
  do 4 bind_inv H.
  bind_inv H. rename v3 into d. rename E3 into Ed.
  bind_inv H. rename v3 into d'. rename E3 into Ed'.
  do 3 bind_inv H.
  match goal with
  | pr : (list (string * string) * compiler.CompileResolver.t)%type |- _ =>
      destruct pr as [params resolver]
  end.
  unfold ret in H. injection H as <- _. cbn [compiler.theme_doc].
  exists d. unfold lift in Ed. injection Ed as Ed _. split; [exact Ed|].
  destruct (compiler.Args.absolute_prefix a) as [pre|].
  - destruct (String.eqb pre "").
    + unfold ret in Ed'. now injection Ed' as <- _.
    + unfold lift in Ed'. now injection Ed' as Ed' _.
  - unfold ret in Ed'. now injection Ed' as <- _.
Qed.

Lemma prepare_theme_witness :
  exists p l' d,
    compiler.prepare example.env posixpath.os_path example.namespaces
      example.args [] = (Ok p, l')
    /\ etree_parse example.env HTMLParser (Filename "theme.html") = Ok d
    /\ compiler.apply_absolute_prefix posixpath.os_path d "/static/"
       = Ok (compiler.theme_doc p).
Proof.
  destruct (compiler.prepare example.env posixpath.os_path example.namespaces
              example.args []) as [[p|e] l'] eqn:E;
    [|vm_compute in E; discriminate].
  destruct (prepare_theme _ _ _ _ _ _ _ E) as (d & Hd & Hm).
  exists p, l', d. split; [reflexivity|]. split; [exact Hd|exact Hm].
Defined.

(** X11.  The parameters and the resolver of a compilation agree.  The
    transform is always told [rulesuri], and the resolver added to the
    compiler parser answers the rules slot; it is told [extraurl]
    exactly when an extra file was given (not [None], not empty), and
    exactly then the resolver answers the extra slot.  [trace] is ['1']
    when tracing is on and absent otherwise; [includemode] is the mode
    in quotes, absent for [None] and for the empty string. *)
Theorem prepare_params (env : Env) (os_path : OsPath) (namespaces : Namespaces)
  (a : compiler.Args.t) (l l' : log) (p : compiler.Prepared) :
  compiler.prepare env os_path namespaces a l = (Ok p, l') ->
  exists resolver : compiler.CompileResolver.t,
    compiler.compiler_parser p
    = resolvers_add
        match compiler.Args.compiler_parser a with
        | Some q => q
        | None => XMLParser
        end
        (compiler.CompileResolver.resolve resolver)
    /\ etree.get "rulesuri" (compiler.params p) = Some "'__xdv__rules'"
    /\ compiler.CompileResolver.resolve resolver "__xdv__rules" <> None
    /\ etree.get "extraurl" (compiler.params p)
       = (if Py.truthy (compiler.Args.extra a) then Some "'__xdv__extra'" else None)
    /\ (compiler.CompileResolver.resolve resolver "__xdv__extra" <> None
        <-> Py.truthy (compiler.Args.extra a) = true)
    /\ etree.get "trace" (compiler.params p)
       = (if compiler.Args.trace a then Some "1" else None)
    /\ etree.get "includemode" (compiler.params p)
       = match compiler.Args.includemode a with
         | Some m => if String.eqb m "" then None else Some ("'" ++ m ++ "'")
         | None => None
         end.
Proof.
  unfold compiler.prepare. intros H.
  do 9 bind_inv H.
  match goal with
  | pr : (list (string * string) * compiler.CompileResolver.t)%type |- _ =>
      destruct pr as [params resolver]
  end.
  unfold ret in H. injection H as <- _.
  cbn [compiler.compiler_parser compiler.params].
  exists resolver. split; [reflexivity|].
  match goal with
  | E : (if Py.truthy _ then _ else _) _ = (Ok (params, resolver), _) |- _ =>
      rename E into Epr
  end.
  assert (Hpr : (Py.truthy (compiler.Args.extra a) = false
                 /\ params = [("rulesuri", "'__xdv__rules'")]
                 /\ compiler.CompileResolver.extra resolver = None)
                \/ (Py.truthy (compiler.Args.extra a) = true
                    /\ params = [("rulesuri", "'__xdv__rules'");
                                 ("extraurl", "'__xdv__extra'")]
                    /\ compiler.CompileResolver.extra resolver <> None)).
  { destruct (Py.truthy (compiler.Args.extra a)) eqn:Et.
    - right. split; [reflexivity|].
      destruct (compiler.Args.extra a) as [e|]; [|discriminate].
      bind_inv Epr. unfold ret in Epr. injection Epr as <- <- _.
      split; [reflexivity|discriminate].
    - left. split; [reflexivity|].
      unfold ret in Epr. injection Epr as <- <- _. split; reflexivity. }
  unfold compiler.CompileResolver.resolve. cbn [String.eqb Ascii.eqb Bool.eqb].
  destruct Hpr as [(Et & -> & Hx)|(Et & -> & Hx)]; rewrite Et.
  - rewrite Hx.
    repeat split; try discriminate; try tauto;
      destruct (compiler.Args.trace a);
      destruct (compiler.Args.includemode a) as [m|];
      try destruct (String.eqb m ""); reflexivity.
  - destruct (compiler.CompileResolver.extra resolver) as [x|]; [|congruence].
    repeat split; try discriminate;
      destruct (compiler.Args.trace a);
      destruct (compiler.Args.includemode a) as [m|];
      try destruct (String.eqb m ""); reflexivity.
Qed.

Lemma prepare_params_witness :
  exists p l',
    compiler.prepare example.env posixpath.os_path example.namespaces
      example.args [] = (Ok p, l')
    /\ compiler.params p = [("rulesuri", "'__xdv__rules'")]
    /\ etree.get "extraurl" (compiler.params p) = None.
Proof.
  destruct (compiler.prepare example.env posixpath.os_path example.namespaces
              example.args []) as [[p|e] l'] eqn:E;
    [|vm_compute in E; discriminate].
  destruct (prepare_params _ _ _ _ _ _ _ E) as (resolver & _ & _ & _ & Hx & _).
  exists p, l'. split; [reflexivity|]. split; [|exact Hx].
  vm_compute in E. now injection E as <- _.
Defined.

(* ================================================================= *)
(** ** The two console scripts *)

Lemma str_arg_str_or_none (o : option string) :
  compiler.str_arg (Some (compiler.str_or_none o)) = o.
Proof. now destruct o. Qed.

(** X12.  The compiler script, given the rules and the theme as
    options (any positional arguments are then ignored) or, with
    neither option, as its two positional arguments, calls
    [compile_theme] with them and writes what it returns.  The keywords
    of the call all name parameters; selector translation and namespace
    update are on, the parsers are the default ones, and the policy
    grants reading files, grants reading the network exactly with the
    network option, and denies all writing. *)
Theorem compiler_main_compiles (env : Env) (os_path : OsPath)
  (namespaces : Namespaces) (o : compiler.Options.t) (args : list string)
  (r t : string) (l : log) :
  (compiler.Options.rules o = Some r /\ compiler.Options.theme o = Some t)
  \/ (compiler.Options.rules o = None /\ compiler.Options.theme o = None
      /\ args = [r; t]) ->
  compiler.main env os_path namespaces o args l
  = (x <~ compiler.compile_theme env os_path namespaces
            {| compiler.Args.rules := r;
               compiler.Args.theme := t;
               compiler.Args.extra := compiler.Options.extra o;
               compiler.Args.css := true;
               compiler.Args.xinclude := compiler.Options.xinclude o;
               compiler.Args.absolute_prefix := compiler.Options.absolute_prefix o;
               compiler.Args.update := true;
               compiler.Args.trace := compiler.Options.trace o;
               compiler.Args.includemode := compiler.Options.includemode o;
               compiler.Args.parser := None;
               compiler.Args.compiler_parser := None;
               compiler.Args.rules_parser := None;
               compiler.Args.access_control :=
                 Some {| read_file := true; write_file := false;
                         create_dir := false;
                         read_network := compiler.Options.read_network o;
                         write_network := false |} |} ;;
     ret (etree_write env (fst x) (compiler.Options.pretty_print o))) l.
Proof.
  intros H. unfold compiler.main, compiler.arguments.
  destruct H as [[Hr Ht]|(Hr & Ht & ->)]; rewrite Hr, Ht;
    unfold bindM at 1; cbn [ret];
    unfold compiler.call_compile_theme;
    change (compiler.unexpected_keyword compiler.compile_theme_params
              (compiler.main_kwargs ?x)) with (@None string);
    cbn [compiler.main_kwargs compiler.kwarg String.eqb Ascii.eqb Bool.eqb
         compiler.bool_arg compiler.parser_arg compiler.access_control_arg
         compiler.Options.set_rules_theme compiler.Options.rules
         compiler.Options.theme compiler.Options.extra compiler.Options.trace
         compiler.Options.xinclude compiler.Options.absolute_prefix
         compiler.Options.includemode compiler.Options.read_network
         compiler.Options.pretty_print];
    rewrite ?Hr, ?Ht; unfold compiler.bind_args;
    cbn [compiler.main_kwargs compiler.kwarg String.eqb Ascii.eqb Bool.eqb
         compiler.bool_arg compiler.parser_arg compiler.access_control_arg
         compiler.Options.set_rules_theme compiler.Options.rules
         compiler.Options.theme compiler.Options.extra compiler.Options.trace
         compiler.Options.xinclude compiler.Options.absolute_prefix
         compiler.Options.includemode compiler.Options.read_network
         compiler.Options.pretty_print];
    rewrite ?Hr, ?Ht, !str_arg_str_or_none; reflexivity.
Qed.

Lemma compiler_main_compiles_witness :
  compiler.Options.rules example.compiler_options = None
  /\ compiler.Options.theme example.compiler_options = None
  /\ compiler.main example.env posixpath.os_path example.namespaces
       example.compiler_options ["rules.xml"; "theme.html"] []
     = (Ok (example.serialize
              (Element "" "html" [] None
                 [Element "" "head" [] None
                    [Element "" "style" []
                       (Some "@import url(/static/css/site.css);") [] None] None;
                  Element "" "body" [] None
                    [Element "" "div" [("id", "page-content")] None
                       [example.leaf "" "img" [("src", "/static/images/foo.jpg")]]
                       None] None]
                 None)),
        [(WARNING, compiler.deprecation_warning example.namespaces)]).
Proof.
  split; [reflexivity|]. split; [reflexivity|].
  rewrite (compiler_main_compiles example.env posixpath.os_path example.namespaces
             example.compiler_options ["rules.xml"; "theme.html"]
             "rules.xml" "theme.html" []
             (or_intror (conj eq_refl (conj eq_refl eq_refl)))).
  vm_compute. reflexivity.
Defined.

(** X13.  The compiler script stops before compiling, with nothing
    logged, when it cannot tell the rules and the theme: with neither
    option and not exactly two positional arguments the error is the
    wrong number of arguments; with exactly one of the two options it
    is that both must be supplied, whatever the positional arguments. *)
Theorem compiler_main_errors (env : Env) (os_path : OsPath)
  (namespaces : Namespaces) (o : compiler.Options.t) (args : list string)
  (l : log) :
  (compiler.Options.rules o = None -> compiler.Options.theme o = None ->
   List.length args <> 2 ->
   compiler.main env os_path namespaces o args l
   = (Raise (SystemExit "Wrong number of arguments."), l))
  /\ ((compiler.Options.rules o = None <-> compiler.Options.theme o <> None) ->
      compiler.main env os_path namespaces o args l
      = (Raise (SystemExit
                  "Both theme and rules must be supplied as options or as arguments."),
         l)).
Proof.
  unfold compiler.main, compiler.arguments. split.
  - intros -> -> Hn.
    destruct args as [|x [|y [|z rest]]]; try reflexivity.
    now destruct Hn.
  - intros [H1 H2].
    destruct (compiler.Options.rules o) as [r|], (compiler.Options.theme o) as [t|];
      try reflexivity.
    + assert (E : Some r = None) by (apply H2; discriminate). discriminate.
    + now destruct (H1 eq_refl).
Qed.

(** *** Transform runner *)

(** X14.  The runner stops before parsing anything, with nothing
    logged: on no or more than two positional arguments; on two when a
    transform or rules option that is not empty was given as well; and
    on one when neither a transform nor rules were given. *)
Theorem run_main_errors (env : Env) (os_path : OsPath) (namespaces : Namespaces)
  (o : run.Options.t) (args : list string) (l : log) :
  (List.length args = 0 \/ 3 <= List.length args ->
   run.main env os_path namespaces o args l
   = (Raise (SystemExit "Wrong number of arguments."), l))
  /\ (List.length args = 2 ->
      (Py.truthy (run.Options.xsl o) || Py.truthy (run.Options.rules o)) = true ->
      run.main env os_path namespaces o args l
      = (Raise (SystemExit "Wrong number of arguments."), l))
  /\ (List.length args = 1 ->
      run.Options.rules o = None -> run.Options.xsl o = None ->
      run.main env os_path namespaces o args l
      = (Raise (SystemExit "Must supply either options or rules"), l)).
Proof.
  unfold run.main, run.arguments. split; [|split].
  - intros H. destruct args as [|x [|y [|z rest]]]; cbn [List.length] in H;
      try reflexivity; lia.
  - intros H Ht. destruct args as [|x [|y [|z rest]]]; try discriminate.
    now rewrite Ht.
  - intros H Hr Hx. destruct args as [|x [|y rest]]; try discriminate.
    unfold bindM at 1. cbn [ret fst snd]. now rewrite Hr, Hx.
Qed.

Lemma bindM_ret {A B : Type} (a : A) (k : A -> M B) (l : log) :
  bindM (ret a) k l = k a l.
Proof. reflexivity. Qed.

(** X15.  With a transform given, the runner does not compile: the
    options for the rules, the theme, the extra file, the absolute
    prefix, the include mode and tracing have no effect on what it
    returns and logs. *)
Theorem run_main_xsl_ignores_compile_options (env : Env) (os_path : OsPath)
  (namespaces : Namespaces) (o1 o2 : run.Options.t) (x content : string)
  (l : log) :
  run.Options.xsl o1 = Some x -> run.Options.xsl o2 = Some x ->
  run.Options.read_network o1 = run.Options.read_network o2 ->
  run.Options.pretty_print o1 = run.Options.pretty_print o2 ->
  run.main env os_path namespaces o1 [content] l
  = run.main env os_path namespaces o2 [content] l.
Proof.
  intros H1 H2 Hn Hp. unfold run.main, run.arguments.
  rewrite !bindM_ret. cbn [fst snd]. rewrite H1, H2, Hn, Hp.
  destruct (run.Options.rules o1), (run.Options.rules o2);
    rewrite !bindM_ret; reflexivity.
Qed.

Lemma run_main_xsl_ignores_compile_options_witness :
  run.Options.xsl example.xsl_options = Some "theme.xsl"
  /\ run.main example.env posixpath.os_path example.namespaces
       example.xsl_options ["content.html"] []
     = run.main example.env posixpath.os_path example.namespaces
         (run.Options.set_rules example.xsl_options "rules.xml")
         ["content.html"] [].
Proof.
  split; [reflexivity|].
  exact (run_main_xsl_ignores_compile_options example.env posixpath.os_path
           example.namespaces example.xsl_options
           (run.Options.set_rules example.xsl_options "rules.xml")
           "theme.xsl" "content.html" [] eq_refl eq_refl eq_refl eq_refl).
Defined.

(** *** Content resolver and the directory of the content *)

Lemma has_char_app (c : ascii) (a b : string) :
  Py.has_char c (a ++ b) = Py.has_char c a || Py.has_char c b.
Proof.
  induction a as [|x a IH]; [reflexivity|].
  change (String x a ++ b) with (String x (a ++ b)).
  cbn [Py.has_char]. now rewrite IH, orb_assoc.
Qed.

Lemma dirname_no_slash (p : string) :
  Py.has_char "/" p = false -> posixpath.dirname p = "".
Proof.
  intros H. unfold posixpath.dirname.
  destruct p as [|c p]; [reflexivity|].
  cbn [posixpath.upto_last_slash]. now rewrite H.
Qed.

Lemma upto_last_slash_app (d f : string) :
  Py.has_char "/" f = false ->
  posixpath.upto_last_slash (d ++ "/" ++ f) = d ++ "/".
Proof.
  intros Hf. induction d as [|c d IH].
  - change ("" ++ "/" ++ f) with (String "/" f).
    cbn [posixpath.upto_last_slash Py.has_char Ascii.eqb Bool.eqb orb].
    destruct f as [|x f]; [reflexivity|].
    cbn [posixpath.upto_last_slash]. now rewrite Hf.
  - change (String c d ++ "/" ++ f) with (String c (d ++ "/" ++ f)).
    assert (Hh : Py.has_char "/" (String c (d ++ "/" ++ f)) = true).
    { cbn [Py.has_char]. rewrite has_char_app.
      change (Py.has_char "/" ("/" ++ f)) with true.
      now rewrite !orb_true_r. }
    cbn [posixpath.upto_last_slash]. now rewrite Hh, IH.
Qed.

Lemma rstrip_slash_app (d : string) :
  d <> "" -> Py.endswith "/" d = false ->
  posixpath.rstrip_slash (d ++ "/") = d.
Proof.
  induction d as [|c d IH]; [congruence|]. intros _ He.
  change (String c d ++ "/") with (String c (d ++ "/")).
  cbn [posixpath.rstrip_slash]. cbv zeta.
  cbn [Py.endswith] in He. apply orb_false_iff in He. destruct He as [Hc Hd].
  destruct d as [|x d].
  - cbn [append posixpath.rstrip_slash String.eqb Ascii.eqb Bool.eqb andb].
    cbv zeta. cbn [String.eqb andb].
    destruct (Ascii.eqb c "/") eqn:E; [|reflexivity].
    apply Ascii.eqb_eq in E. subst c. discriminate.
  - rewrite IH by (discriminate || exact Hd). reflexivity.
Qed.

(** X16.  When the content path holds no slash (a file of the working
    directory, or ['-'] for the standard input), the directory of the
    resolver is empty and every url, relative or not, is resolved as it
    is. *)
Theorem RunResolver_no_directory (content url : string) :
  Py.has_char "/" content = false ->
  run.RunResolver.resolve posixpath.os_path
    {| run.RunResolver.directory := os_path_dirname posixpath.os_path content |} url
  = Some (resolve_filename url).
Proof.
  intros H. unfold run.RunResolver.resolve.
  cbn [os_path_dirname os_path_join posixpath.os_path run.RunResolver.directory].
  rewrite (dirname_no_slash _ H).
  destruct (Py.contains "://" url || Py.startswith "/" url); [reflexivity|].
  unfold posixpath.join. now destruct (Py.startswith "/" url).
Qed.

Lemma RunResolver_no_directory_witness :
  Py.has_char "/" "-" = false
  /\ run.RunResolver.resolve posixpath.os_path
       {| run.RunResolver.directory := os_path_dirname posixpath.os_path "-" |}
       "included/part.html"
     = Some (resolve_filename "included/part.html").
Proof.
  split; [reflexivity|].
  exact (RunResolver_no_directory "-" "included/part.html" eq_refl).
Defined.

(** X17.  For a content file [d/f] ([f] without a slash, [d] not empty
    and not ending with a slash), the resolver made by the runner
    resolves a relative url [u] as [d/u], a file beside the content. *)
Theorem RunResolver_beside_content (d f url : string) :
  d <> "" -> Py.endswith "/" d = false ->
  Py.has_char "/" f = false ->
  Py.contains "://" url = false -> Py.startswith "/" url = false ->
  os_path_dirname posixpath.os_path (d ++ "/" ++ f) = d
  /\ run.RunResolver.resolve posixpath.os_path
       {| run.RunResolver.directory :=
            os_path_dirname posixpath.os_path (d ++ "/" ++ f) |} url
     = Some (resolve_filename (d ++ "/" ++ url)).
Proof.
  intros Hd He Hf Hn Hs.
  assert (E : os_path_dirname posixpath.os_path (d ++ "/" ++ f) = d).
  { cbn [os_path_dirname posixpath.os_path]. unfold posixpath.dirname.
    rewrite (upto_last_slash_app _ _ Hf), (rstrip_slash_app _ Hd He).
    destruct d; [congruence|reflexivity]. }
  split; [exact E|]. rewrite E.
  unfold run.RunResolver.resolve. rewrite Hn, Hs.
  cbn [orb os_path_join posixpath.os_path run.RunResolver.directory].
  unfold posixpath.join. rewrite Hs, He.
  destruct d; [congruence|reflexivity].
Qed.

Lemma RunResolver_beside_content_witness :
  "/srv/site" <> "" /\ Py.endswith "/" "/srv/site" = false
  /\ Py.has_char "/" "index.html" = false
  /\ Py.contains "://" "parts/menu.html" = false
  /\ Py.startswith "/" "parts/menu.html" = false
  /\ run.RunResolver.resolve posixpath.os_path
       {| run.RunResolver.directory :=
            os_path_dirname posixpath.os_path "/srv/site/index.html" |}
       "parts/menu.html"
     = Some (resolve_filename "/srv/site/parts/menu.html").
Proof.
  split; [discriminate|]. repeat (split; [reflexivity|]).
  assert (Hd : "/srv/site" <> "") by discriminate.
  exact (proj2 (RunResolver_beside_content "/srv/site" "index.html"
                  "parts/menu.html" Hd eq_refl eq_refl eq_refl eq_refl)).
Defined.

(* ================================================================= *)
(** ** The rules the compiler reads *)

(** X19.  The rules that the resolver serves to the compiler transform
    are the serialization of the rules document as parsed, then after
    XInclude, then after the namespace update, then after the selector
    translation, in this order and each step only when it is enabled. *)
Theorem prepare_rules (env : Env) (os_path : OsPath) (namespaces : Namespaces)
  (a : compiler.Args.t) (l l' : log) (p : compiler.Prepared) :
  compiler.prepare env os_path namespaces a l = (Ok p, l') ->
  exists (d0 d1 d2 d3 : node) (resolver : compiler.CompileResolver.t),
    etree_parse env
      match compiler.Args.rules_parser a with
      | Some q => q
      | None => XMLParser
      end
      (Filename (compiler.Args.rules a)) = Ok d0
    /\ (if compiler.Args.xinclude a then etree_xinclude env d0 = Ok d1 else d1 = d0)
    /\ (if compiler.Args.update a
        then fst (compiler.update_namespace namespaces d1 l) = Ok d2
        else d2 = d1)
    /\ (if compiler.Args.css a then convert_css_selectors env d2 = Ok d3 else d3 = d2)
    /\ resolvers (compiler.compiler_parser p)
       = (resolvers match compiler.Args.compiler_parser a with
                    | Some q => q
                    | None => XMLParser
                    end
          ++ [compiler.CompileResolver.resolve resolver])%list
    /\ compiler.CompileResolver.resolve resolver "__xdv__rules"
       = Some (resolve_string (etree_tostring env d3)).
Proof.
  unfold compiler.prepare. intros H.
  bind_inv H. rename v into d0. rename E into E0.
  bind_inv H. rename v into d1. rename E into E1.
  bind_inv H. rename v into d2. rename E into E2.
  bind_inv H. rename v into d3. rename E into E3.
  do 5 bind_inv H.
  match goal with
  | pr : (list (string * string) * compiler.CompileResolver.t)%type |- _ =>
      destruct pr as [params resolver]
  end.
  unfold ret in H. injection H as <- _. cbn [compiler.compiler_parser].
  exists d0, d1, d2, d3, resolver.
  unfold lift in E0. injection E0 as E0 <-.
  split; [exact E0|].
  unfold compiler.when in E1, E2, E3.
  assert (H1 : (if compiler.Args.xinclude a then etree_xinclude env d0 = Ok d1
                else d1 = d0) /\ l1 = l).
  { destruct (compiler.Args.xinclude a).
    - unfold lift in E1. now injection E1 as E1 <-.
    - unfold ret in E1. now injection E1 as <- <-. }
  destruct H1 as [H1 ->]. split; [exact H1|].
  split.
  { destruct (compiler.Args.update a).
    - now rewrite E2.
    - unfold ret in E2. now injection E2 as <- _. }
  split.
  { destruct (compiler.Args.css a).
    - unfold lift in E3. now injection E3 as E3 _.
    - unfold ret in E3. now injection E3 as <- _. }
  split; [reflexivity|].
  match goal with
  | E : (if Py.truthy _ then _ else _) _ = (Ok (params, resolver), _) |- _ =>
      rename E into Epr
  end.
  assert (Hr : compiler.CompileResolver.rules resolver = etree_tostring env d3).
  { destruct (Py.truthy (compiler.Args.extra a)).
    - destruct (compiler.Args.extra a) as [x|].
      + bind_inv Epr. unfold ret in Epr. now injection Epr as _ <- _.
      + unfold ret in Epr. now injection Epr as _ <- _.
    - unfold ret in Epr. now injection Epr as _ <- _. }
  unfold compiler.CompileResolver.resolve. cbn [String.eqb Ascii.eqb Bool.eqb].
  now rewrite Hr.
Qed.

Lemma prepare_rules_witness :
  exists p l' resolver,
    compiler.prepare example.env posixpath.os_path example.namespaces
      example.args [] = (Ok p, l')
    /\ resolvers (compiler.compiler_parser p)
       = [compiler.CompileResolver.resolve resolver]
    /\ compiler.CompileResolver.resolve resolver "__xdv__rules"
       = Some (resolve_string (example.serialize example.xdv_rules)).
Proof.
  destruct (compiler.prepare example.env posixpath.os_path example.namespaces
              example.args []) as [[p|e] l'] eqn:E;
    [|vm_compute in E; discriminate].
  destruct (prepare_rules _ _ _ _ _ _ _ E)
    as (d0 & d1 & d2 & d3 & resolver & H0 & H1 & H2 & H3 & Hp & Hr).
  exists p, l', resolver. split; [reflexivity|]. split; [exact Hp|].
  rewrite Hr. cbn in H0, H1, H2, H3.
  injection H0 as <-. injection H1 as <-.
  vm_compute in H2. injection H2 as <-. injection H3 as <-.
  reflexivity.
Defined.

(* ================================================================= *)
(** ** The pattern on a quoted import *)

Lemma quote_char (q : ascii) :
  re.quote q = true ->
  re.dot q = true /\ re.is_char ")" q = false
  /\ Ascii.eqb (Py.lower_ascii q) (Py.lower_ascii "u") = false.
Proof.
  destruct q as [[] [] [] [] [] [] [] []]; intros H; try discriminate H;
    repeat split; reflexivity.
Qed.

Lemma run_import_tail_quoted (c q : ascii) (u t : string) (g : re.groups) :
  re.dot c = true ->
  Py.all re.dot u = true ->
  re.quote q = true ->
  Py.all frame.plain t = true ->
  re.run frame.import_tail (String c u ++ String q t) g
    (fun rest g' => Some (rest, g'))
  = Some (t, (3, String q "") :: (2, String c u) :: g).
Proof.
  intros Hdot Hu Hq Ht. destruct (quote_char q Hq) as (Hqd & Hqp & _).
  unfold frame.import_tail.
  change (String c u ++ String q t) with (String c (u ++ String q t)).
  cbn [re.run]. rewrite Hdot.
  apply star_some; [exact Hu|].
  cbn [re.star]. rewrite Hqd.
  rewrite (star_none re.dot frame.plain t).
  - rewrite Hq, Hqp.
    destruct t as [|x t'].
    + change (String q "") with (String q "" ++ "").
      change (String c (u ++ String q "" ++ "")) with (String c u ++ (String q "" ++ "")).
      now rewrite !consumed_app.
    + cbn [Py.all] in Ht. apply andb_true_iff in Ht. destruct Ht as [Hx _].
      destruct (plain_char x Hx) as [_ ->].
      change (String q (String x t')) with (String q "" ++ String x t').
      change (String c (u ++ String q "" ++ String x t'))
        with (String c u ++ (String q "" ++ String x t')).
      now rewrite !consumed_app.
  - reflexivity.
  - intros c0 s0 Hc0. destruct (plain_char c0 Hc0) as [H1 H2].
    now rewrite H1, H2.
  - exact Ht.
Qed.

Lemma run_import_head_quoted {A : Type} (q : ascii) (s : string)
  (k : string -> re.groups -> option A) (r : A) :
  re.quote q = true ->
  k s [(1, "@import " ++ String q "")] = Some r ->
  re.run frame.import_head ("@import " ++ String q s) [] k = Some r.
Proof.
  intros Hq Hk. destruct (quote_char q Hq) as (_ & _ & Hu).
  unfold frame.import_head.
  cbn [re.run].
  change ("@import " ++ String q s) with ("@import" ++ (String " " (String q s))) at 1.
  rewrite run_lit_i.
  change (re.space " ") with true. cbv iota.
  cbn [re.star].
  assert (Hs : re.space q = false)
    by (clear - Hq; destruct q as [[] [] [] [] [] [] [] []];
        try discriminate Hq; reflexivity).
  rewrite Hs. cbn [re.lit_i re.run]. rewrite Hu, Hq.
  change ("@import " ++ String q s) with (("@import " ++ String q "") ++ s).
  rewrite consumed_app. exact Hk.
Qed.

(** X20.  A quoted import [@import 'u'] (either quote on either side)
    is rewritten as intended when the rest of the text is plain: for
    [u] not empty and without newline, between a text without [@] and
    a text without quotes, closing parentheses and [@], the
    substitution puts [to_absolute u] in the place of [u] and copies
    everything else. *)
Theorem sub_imports_quoted (os_path : OsPath) (p before : string)
  (q c : ascii) (u : string) (q' : ascii) (after : string) :
  Py.has_char "@" before = false ->
  re.quote q = true -> re.quote q' = true ->
  re.dot c = true ->
  Py.all re.dot u = true ->
  Py.all frame.plain after = true ->
  compiler.sub_imports os_path p
    (before ++ "@import " ++ String q (String c u) ++ String q' after)
  = before ++ "@import "
    ++ String q (compiler.to_absolute os_path (String c u) p) ++ String q' after.
Proof.
  intros Hb Hq Hq' Hdot Hu Ha.
  rewrite sub_imports_app by exact Hb. f_equal.
  assert (E : "@import " ++ String q (String c u) ++ String q' after
              = String "@" ("import " ++ String q (String c u) ++ String q' "")
                ++ after).
  { cbn [append]. do 10 f_equal. rewrite string_app_assoc. reflexivity. }
  unfold compiler.sub_imports.
  rewrite E, (sub_from_match _ _ _ _ _
                [(3, String q' ""); (2, String c u); (1, "@import " ++ String q "")]).
  - fold (compiler.sub_imports os_path p after).
    rewrite (sub_imports_no_at _ _ _ (plain_chars_no_at _ Ha)).
    unfold compiler.import_repl. cbn [re.group Nat.eqb].
    cbn [append]. do 9 f_equal. now rewrite string_app_assoc.
  - rewrite <- E. unfold re.match_. rewrite import_pattern.
    change (re.run (re.Cat frame.import_head frame.import_tail) ?s ?g ?k)
      with (re.run frame.import_head s g
              (fun s' g' => re.run frame.import_tail s' g' k)).
    change ("@import " ++ String q (String c u) ++ String q' after)
      with ("@import " ++ String q (String c u ++ String q' after)).
    apply run_import_head_quoted; [exact Hq|].
    now apply run_import_tail_quoted.
Qed.

Lemma sub_imports_quoted_witness :
  Py.has_char "@" "" = false
  /\ re.quote "'" = true /\ re.dot "c" = true
  /\ Py.all re.dot "ss/../print.css" = true
  /\ Py.all frame.plain " print;" = true
  /\ compiler.sub_imports posixpath.os_path "/static"
       "@import 'css/../print.css' print;"
     = "@import '/static/print.css' print;".
Proof.
  repeat (split; [reflexivity|]).
  exact (sub_imports_quoted posixpath.os_path "/static" "" "'" "c"
           "ss/../print.css" "'" " print;"
           eq_refl eq_refl eq_refl eq_refl eq_refl eq_refl).
Defined.
